(** * markdown2html: the block converter and the inline formatter

    A shallow embedding of [src/markdown2html.py].  The two functions of
    the script, [format_text] and [markdown_to_html], are transcribed
    arm by arm; the library calls they make ([str.rstrip], [str.startswith],
    slicing, [re.match], [re.sub], [hashlib.md5]) are modelled in the
    modules [PyStr], [Re] and [MD5] below.

    A Python [str] is modelled as a Rocq [string]; the embedding is exact
    for ASCII text (one [ascii] per code point, and UTF-8 encoding is the
    identity on bytes). *)

From Stdlib Require Import ZArith List String Ascii Bool Arith Lia DecimalString.
Import ListNotations.
Open Scope string_scope.

(** ** Python string primitives *)

Module PyStr.

(** The one-character string ['\n']. *)
Definition NL : string := String "010"%char EmptyString.

(** [str.isspace] on ASCII: TAB, LF, VT, FF, CR, FS, GS, RS, US, SPACE. *)
Definition is_space (c : ascii) : bool :=
  let n := nat_of_ascii c in
  (((9 <=? n) && (n <=? 13)) || ((28 <=? n) && (n <=? 32)))%nat.

Definition is_empty (s : string) : bool :=
  match s with EmptyString => true | String _ _ => false end.

(** [s.rstrip()] *)
Fixpoint rstrip (s : string) : string :=
  match s with
  | EmptyString => EmptyString
  | String c s' =>
      let r := rstrip s' in
      if is_space c && is_empty r then EmptyString else String c r
  end.

(** [s.lstrip()] *)
Fixpoint lstrip (s : string) : string :=
  match s with
  | EmptyString => EmptyString
  | String c s' => if is_space c then lstrip s' else s
  end.

(** [s.strip()] *)
Definition strip (s : string) : string := lstrip (rstrip s).

(** [s.startswith(p)] *)
Definition startswith (p s : string) : bool := String.prefix p s.

(** [s[n:]] for [n >= 0] *)
Fixpoint drop (n : nat) (s : string) : string :=
  match n, s with
  | O, _ => s
  | S _, EmptyString => EmptyString
  | S k, String _ s' => drop k s'
  end.

(** [s[:n]] for [n >= 0] *)
Fixpoint take (n : nat) (s : string) : string :=
  match n, s with
  | O, _ => EmptyString
  | S _, EmptyString => EmptyString
  | S k, String c s' => String c (take k s')
  end.

(** [s[:-n]] for [n > 0]: everything but the last [n] characters, and
    the empty string when [s] is shorter than that. *)
Definition chop (n : nat) (s : string) : string := take (length s - n) s.

Definition lower_char (c : ascii) : ascii :=
  let n := nat_of_ascii c in
  if ((65 <=? n) && (n <=? 90))%nat then ascii_of_nat (n + 32) else c.

(** [s.lower()] *)
Fixpoint lower (s : string) : string :=
  match s with
  | EmptyString => EmptyString
  | String c s' => String (lower_char c) (lower s')
  end.

(** [s.replace(c, '')] for a one-character [c] *)
Fixpoint remove_char (c : ascii) (s : string) : string :=
  match s with
  | EmptyString => EmptyString
  | String x s' =>
      if Ascii.eqb x c then remove_char c s' else String x (remove_char c s')
  end.

(** The text before and after the first occurrence of [d] in [s]. *)
Fixpoint split_at (d s : string) : option (string * string) :=
  if String.prefix d s then Some (EmptyString, drop (length d) s)
  else
    match s with
    | EmptyString => None
    | String c s' =>
        match split_at d s' with
        | Some (a, b) => Some (String c a, b)
        | None => None
        end
    end.

(** [str(n)] for a non-negative integer, as an f-string prints it *)
Definition str_of_nat (n : nat) : string :=
  NilEmpty.string_of_uint (Nat.to_uint n).

(** [''.join(l)] *)
Definition join (l : list string) : string := String.concat EmptyString l.

(** [k] copies of a character *)
Fixpoint replicate (k : nat) (c : ascii) : string :=
  match k with
  | O => EmptyString
  | S k' => String c (replicate k' c)
  end.

(** Number of (possibly overlapping) occurrences of [p] in [s]. *)
Fixpoint occurrences (p s : string) : nat :=
  (if String.prefix p s then 1 else 0) +
  match s with
  | EmptyString => 0
  | String _ s' => occurrences p s'
  end.

End PyStr.

(** ** The four regular expressions of the script *)

Module Re.
Import PyStr.

(** [.] matches every character but the newline. *)
Definition dot (c : ascii) : bool := negb (Ascii.eqb c "010"%char).

Fixpoint all_dot (s : string) : bool :=
  match s with
  | EmptyString => true
  | String c s' => dot c && all_dot s'
  end.

(** Length of the run of ['#'] a string starts with: what the greedy
    [#+] consumes. *)
Fixpoint count_hashes (s : string) : nat :=
  match s with
  | String c s' => if Ascii.eqb c "#"%char then S (count_hashes s') else 0
  | EmptyString => 0
  end.

(** What the greedy any-characters group captures when the end-of-line
    anchor follows it: all of [s] when it has no newline, [s] without
    its last character when that is its only newline. *)
Fixpoint dots_to_end (s : string) : option string :=
  match s with
  | EmptyString => Some EmptyString
  | String c s' =>
      if dot c then
        match dots_to_end s' with
        | Some t => Some (String c t)
        | None => None
        end
      else if is_empty s' then Some EmptyString else None
  end.

(** The heading pattern of [re.match] (a run of hashes, one space, any
    characters to the end of the line): the length of group 1 and group 2.
    The greedy [#+] takes the whole run of hashes; giving one back
    leaves a ['#'] where the space must be, so no shorter run matches. *)
Definition heading_match (line : string) : option (nat * string) :=
  let k := count_hashes line in
  match k, drop k line with
  | S _, String c rest =>
      if Ascii.eqb c " "%char then
        match dots_to_end rest with
        | Some text => Some (k, text)
        | None => None
        end
      else None
  | _, _ => None
  end.

(** A match of [o(.*?)c] at the start of [s], for literal [o] and [c]:
    group 1 and the text after the match.  The lazy group stops at the
    first [c]; a newline before it rules every match out. *)
Definition lazy_between (o c s : string) : option (string * string) :=
  if String.prefix o s then
    match split_at c (drop (length o) s) with
    | Some (span, rest) => if all_dot span then Some (span, rest) else None
    | None => None
    end
  else None.

(** [re.match(r'\[\[(.*?)\]\]', line)]: group 1 *)
Definition hash_command_match (line : string) : option string :=
  option_map fst (lazy_between "[[" "]]" line).

(** [re.match(r'\(\((.*?)\)\)', line)]: group 1 *)
Definition strip_command_match (line : string) : option string :=
  option_map fst (lazy_between "((" "))" line).

(** [re.sub(d(.*?)d, otag \1 ctag, s)] for a literal delimiter [d]:
    a left-to-right scan; [skip] counts the characters of the last match
    that are still to be passed over. *)
Fixpoint sub_scan (d otag ctag : string) (skip : nat) (s : string) : string :=
  match s with
  | EmptyString => EmptyString
  | String ch s' =>
      match skip with
      | S k => sub_scan d otag ctag k s'
      | O =>
          match lazy_between d d s with
          | Some (span, _) =>
              otag ++ span ++ ctag ++
              sub_scan d otag ctag (length d + length span + length d - 1) s'
          | None => String ch (sub_scan d otag ctag 0 s')
          end
      end
  end.

(** [re.sub(r'\*\*(.*?)\*\*', r'<b>\1</b>', text)] *)
Definition sub_bold (text : string) : string :=
  sub_scan "**" "<b>" "</b>" 0 text.

(** [re.sub(r'__(.*?)__', r'<em>\1</em>', text)] *)
Definition sub_em (text : string) : string :=
  sub_scan "__" "<em>" "</em>" 0 text.

End Re.

(** ** [hashlib.md5(...).hexdigest()] (RFC 1321) on 32-bit words in [Z] *)

Module MD5.
Local Open Scope Z_scope.

Definition mask32 : Z := 0xffffffff.
Definition add32 (a b : Z) : Z := Z.land (a + b) mask32.
Definition not32 (a : Z) : Z := Z.lxor a mask32.
Definition rotl32 (x n : Z) : Z :=
  Z.lor (Z.land (Z.shiftl x n) mask32) (Z.shiftr x (32 - n)).

Definition K : list Z :=
  [ 0xd76aa478; 0xe8c7b756; 0x242070db; 0xc1bdceee;
    0xf57c0faf; 0x4787c62a; 0xa8304613; 0xfd469501;
    0x698098d8; 0x8b44f7af; 0xffff5bb1; 0x895cd7be;
    0x6b901122; 0xfd987193; 0xa679438e; 0x49b40821;
    0xf61e2562; 0xc040b340; 0x265e5a51; 0xe9b6c7aa;
    0xd62f105d; 0x02441453; 0xd8a1e681; 0xe7d3fbc8;
    0x21e1cde6; 0xc33707d6; 0xf4d50d87; 0x455a14ed;
    0xa9e3e905; 0xfcefa3f8; 0x676f02d9; 0x8d2a4c8a;
    0xfffa3942; 0x8771f681; 0x6d9d6122; 0xfde5380c;
    0xa4beea44; 0x4bdecfa9; 0xf6bb4b60; 0xbebfbc70;
    0x289b7ec6; 0xeaa127fa; 0xd4ef3085; 0x04881d05;
    0xd9d4d039; 0xe6db99e5; 0x1fa27cf8; 0xc4ac5665;
    0xf4292244; 0x432aff97; 0xab9423a7; 0xfc93a039;
    0x655b59c3; 0x8f0ccc92; 0xffeff47d; 0x85845dd1;
    0x6fa87e4f; 0xfe2ce6e0; 0xa3014314; 0x4e0811a1;
    0xf7537e82; 0xbd3af235; 0x2ad7d2bb; 0xeb86d391 ].

Definition shifts : list Z :=
  [ 7; 12; 17; 22; 7; 12; 17; 22; 7; 12; 17; 22; 7; 12; 17; 22;
    5;  9; 14; 20; 5;  9; 14; 20; 5;  9; 14; 20; 5;  9; 14; 20;
    4; 11; 16; 23; 4; 11; 16; 23; 4; 11; 16; 23; 4; 11; 16; 23;
    6; 10; 15; 21; 6; 10; 15; 21; 6; 10; 15; 21; 6; 10; 15; 21 ].

(** [n] little-endian bytes of [x] *)
Fixpoint le_bytes (n : nat) (x : Z) : list Z :=
  match n with
  | O => []
  | S k => Z.land x 0xff :: le_bytes k (Z.shiftr x 8)
  end.

Fixpoint le_word (bs : list Z) : Z :=
  match bs with
  | [] => 0
  | b :: bs' => Z.lor b (Z.shiftl (le_word bs') 8)
  end.

(** The message, a 1 bit, zeros up to 56 mod 64 bytes, and the bit
    length on 64 bits. *)
Definition pad (msg : list Z) : list Z :=
  let len := Z.of_nat (List.length msg) in
  msg ++ [0x80] ++ repeat 0 (Z.to_nat ((55 - len) mod 64))
      ++ le_bytes 8 (Z.land (8 * len) 0xffffffffffffffff).

(** The [n] 32-bit words a byte list starts with. *)
Fixpoint words (n : nat) (bs : list Z) : list Z :=
  match n with
  | O => []
  | S k => le_word (firstn 4 bs) :: words k (skipn 4 bs)
  end.

Definition round (M : list Z) (st : Z * Z * Z * Z) (i : nat) : Z * Z * Z * Z :=
  let '(a, b, c, d) := st in
  let iz := Z.of_nat i in
  let '(f, g) :=
    if (i <? 16)%nat then (Z.lor (Z.land b c) (Z.land (not32 b) d), iz)
    else if (i <? 32)%nat then
      (Z.lor (Z.land d b) (Z.land (not32 d) c), (5 * iz + 1) mod 16)
    else if (i <? 48)%nat then (Z.lxor b (Z.lxor c d), (3 * iz + 5) mod 16)
    else (Z.lxor c (Z.lor b (not32 d)), (7 * iz) mod 16) in
  let f' := add32 (add32 (add32 f a) (nth i K 0)) (nth (Z.to_nat g) M 0) in
  (d, add32 b (rotl32 f' (nth i shifts 0)), b, c).

Definition block (st : Z * Z * Z * Z) (M : list Z) : Z * Z * Z * Z :=
  let '(a0, b0, c0, d0) := st in
  let '(a, b, c, d) := fold_left (round M) (seq 0 64) st in
  (add32 a0 a, add32 b0 b, add32 c0 c, add32 d0 d).

(** The 64-byte blocks of a padded message, as 16 words each. *)
Fixpoint blocks (n : nat) (bs : list Z) : list (list Z) :=
  match n with
  | O => []
  | S k => words 16 bs :: blocks k (skipn 64 bs)
  end.

Definition digest (msg : list Z) : list Z :=
  let p := pad msg in
  let '(a, b, c, d) :=
    fold_left block (blocks (List.length p / 64) p)
              (0x67452301, 0xefcdab89, 0x98badcfe, 0x10325476) in
  le_bytes 4 a ++ le_bytes 4 b ++ le_bytes 4 c ++ le_bytes 4 d.

Definition hex_digit (n : Z) : ascii :=
  if n <? 10 then ascii_of_nat (48 + Z.to_nat n)
  else ascii_of_nat (87 + Z.to_nat n).

Fixpoint hex (bs : list Z) : string :=
  match bs with
  | [] => EmptyString
  | b :: bs' =>
      String (hex_digit (Z.shiftr b 4)) (String (hex_digit (Z.land b 0xf)) (hex bs'))
  end.

(** [s.encode()]: UTF-8, one byte per ASCII character *)
Fixpoint encode (s : string) : list Z :=
  match s with
  | EmptyString => []
  | String c s' => Z.of_nat (nat_of_ascii c) :: encode s'
  end.

(** [hashlib.md5(s.encode()).hexdigest()] *)
Definition hexdigest (s : string) : string := hex (digest (encode s)).

End MD5.

Import PyStr.

(** ** The inline formatter *)

(** [format_text]: the bold rule over the whole text, then the emphasis
    rule over what the bold rule returned. *)
Definition format_text (text : string) : string :=
  let text := Re.sub_bold text in
  let text := Re.sub_em text in
  text.

(** ** The block converter *)

(** The three locals of [markdown_to_html] that live across lines. *)
Record state : Type := mkState {
  html_lines : list string;
  in_unordered_list : bool;
  in_ordered_list : bool
}.

(** [html_lines.append(x)] *)
Definition append (st : state) (x : string) : state :=
  mkState (html_lines st ++ [x]) (in_unordered_list st) (in_ordered_list st).

(** [html_lines and html_lines[-1].startswith('<p>')] *)
Definition last_is_paragraph (l : list string) : bool :=
  match l with
  | [] => false
  | _ :: _ => startswith "<p>" (last l EmptyString)
  end.

(** [html_lines[-1] = x] on a non-empty list *)
Definition set_last (st : state) (x : string) : state :=
  mkState (removelast (html_lines st) ++ [x])
          (in_unordered_list st) (in_ordered_list st).

(** The body of the [for] loop: one line through the [if]/[elif] chain.
    Exactly one arm runs; an arm that ends without [continue] ends the
    chain all the same, so the loop moves on to the next line. *)
Definition process_line (st : state) (raw : string) : state :=
  let line := rstrip raw in
  match Re.heading_match line with
  | Some (level, text) =>
      append st ("<h" ++ str_of_nat level ++ ">" ++ text
                      ++ "</h" ++ str_of_nat level ++ ">" ++ NL)
  | None =>
      if startswith "- " line then
        let st1 :=
          if negb (in_unordered_list st)
          then mkState (html_lines st ++ ["<ul>" ++ NL]) true (in_ordered_list st)
          else st in
        append st1 ("<li>" ++ format_text (drop 2 line) ++ "</li>" ++ NL)
      else if in_unordered_list st && negb (startswith "- " line) then
        mkState (html_lines st ++ ["</ul>" ++ NL]) false (in_ordered_list st)
      else if startswith "* " line then
        let st1 :=
          if negb (in_ordered_list st)
          then mkState (html_lines st ++ ["<ol>" ++ NL]) (in_unordered_list st) true
          else st in
        append st1 ("<li>" ++ format_text (drop 2 line) ++ "</li>" ++ NL)
      else if in_ordered_list st && negb (startswith "* " line) then
        mkState (html_lines st ++ ["</ol>" ++ NL]) (in_unordered_list st) false
      else if startswith "[[" line then
        match Re.hash_command_match line with
        | Some content => append st ("<p>" ++ MD5.hexdigest content ++ "</p>" ++ NL)
        | None => st
        end
      else if startswith "((" line then
        match Re.strip_command_match line with
        | Some group1 =>
            let content := remove_char "C" (remove_char "c" (lower group1)) in
            append st ("<p>" ++ content ++ "</p>" ++ NL)
        | None => st
        end
      else if negb (is_empty (strip line)) then
        let formatted_line := format_text line in
        if last_is_paragraph (html_lines st) then
          set_last st (chop 3 (last (html_lines st) EmptyString)
                         ++ "<br/>" ++ NL ++ formatted_line ++ "</p>" ++ NL)
        else
          append st ("<p>" ++ NL ++ formatted_line ++ NL ++ "</p>" ++ NL)
      else if last_is_paragraph (html_lines st) then
        set_last st (chop 3 (last (html_lines st) EmptyString) ++ "</p>" ++ NL)
      else st
  end.

Definition initial : state := mkState [] false false.

(** The state when the [for] loop is over. *)
Definition run (markdown_text : list string) : state :=
  fold_left process_line markdown_text initial.

(** The two [if]s after the loop. *)
Definition close_lists (st : state) : state :=
  let st1 := if in_unordered_list st then append st ("</ul>" ++ NL) else st in
  if in_ordered_list st1 then append st1 ("</ol>" ++ NL) else st1.

(** The fragments that are joined into the result. *)
Definition fragments (markdown_text : list string) : list string :=
  html_lines (close_lists (run markdown_text)).

Definition markdown_to_html (markdown_text : list string) : string :=
  join (fragments markdown_text).

(** ** Which arm a line takes *)

(** The guards a line has passed when it reaches the arm under
    [# Simple text paragraphs]: every earlier [if]/[elif] test failed and
    [line.strip()] is non-empty. *)
Definition paragraph_arm (st : state) (raw : string) : bool :=
  let line := rstrip raw in
  match Re.heading_match line with
  | Some _ => false
  | None =>
      negb (startswith "- " line) && negb (in_unordered_list st)
      && negb (startswith "* " line) && negb (in_ordered_list st)
      && negb (startswith "[[" line) && negb (startswith "((" line)
      && negb (is_empty (strip line))
  end.

(** The text a command line puts between [<p>] and [</p>]: the digest for
    the double-bracket form, the lower-cased text without its [c]s for the
    double-parenthesis form, nothing when the line is neither. *)
Definition command_content (line : string) : option string :=
  if startswith "[[" line then
    option_map MD5.hexdigest (Re.hash_command_match line)
  else if startswith "((" line then
    option_map (fun g => remove_char "C" (remove_char "c" (lower g)))
               (Re.strip_command_match line)
  else None.

(** [lacks x s]: the character [x] does not occur in [s]. *)
Fixpoint lacks (x : ascii) (s : string) : bool :=
  match s with
  | EmptyString => true
  | String c s' => negb (Ascii.eqb c x) && lacks x s'
  end.

(** Number of fragments equal to [t]. *)
Definition count_fragment (t : string) (l : list string) : nat :=
  List.length (filter (String.eqb t) l).

(** [s] ends with [suffix]. *)
Definition ends_with (suffix s : string) : Prop :=
  exists before, s = before ++ suffix.

(** The four list tags as fragments. *)
Definition UL_OPEN : string := "<ul>" ++ NL.
Definition UL_CLOSE : string := "</ul>" ++ NL.
Definition OL_OPEN : string := "<ol>" ++ NL.
Definition OL_CLOSE : string := "</ol>" ++ NL.

(** The four list tags, and the fragments that are none of them. *)
Definition is_tag (t : string) : Prop :=
  t = UL_OPEN \/ t = UL_CLOSE \/ t = OL_OPEN \/ t = OL_CLOSE.

Definition plain_fragment (x : string) : Prop :=
  forall t, is_tag t -> String.eqb t x = false.

(** The list-balance invariant of the loop: every opened list is either
    closed already or recorded as open in its flag. *)
Definition balanced (st : state) : Prop :=
  count_fragment UL_OPEN (html_lines st)
  = count_fragment UL_CLOSE (html_lines st)
    + (if in_unordered_list st then 1 else 0)
  /\
  count_fragment OL_OPEN (html_lines st)
  = count_fragment OL_CLOSE (html_lines st)
    + (if in_ordered_list st then 1 else 0).

(** ** Leftmost-shortest matching, in the words of the specification *)

(** [match_with d s n]: the text [s] starts with the delimiter [d], then
    [n] characters none of which is a newline, then [d] again.  That is a
    match of the pattern of a rule at the start of [s], with a span of
    [n] characters. *)
Definition match_with (d s : string) (n : nat) : bool :=
  String.prefix d s
  && Re.all_dot (take n (drop (length d) s))
  && String.prefix d (drop (length d + n) s).

(** No match, of any span, starts at one of the first [k] positions of
    [text]. *)
Definition no_match_before (d text : string) (k : nat) : bool :=
  forallb
    (fun j =>
       forallb (fun m => negb (match_with d (drop j text) m))
               (seq 0 (S (length text))))
    (seq 0 k).

(** No match starts anywhere in [text]. *)
Definition no_match (d text : string) : bool :=
  no_match_before d text (S (length text)).

(** The match that starts at position [k] with a span of [n] characters
    is the leftmost one (no match starts before [k]) and the shortest one
    that starts there (no shorter span matches at [k]). *)
Definition leftmost_shortest (d text : string) (k n : nat) : bool :=
  match_with d (drop k text) n
  && no_match_before d text k
  && forallb (fun m => negb (match_with d (drop k text) m)) (seq 0 n).

(** ** Shapes of lines and fragments *)

(** A string of whitespace only. *)
Fixpoint all_space (s : string) : bool :=
  match s with
  | EmptyString => true
  | String c s' => is_space c && all_space s'
  end.

(** The last character of a string, if it has one. *)
Fixpoint last_char (s : string) : option ascii :=
  match s with
  | EmptyString => None
  | String c EmptyString => Some c
  | String _ s' => last_char s'
  end.



(** The fragments the converter writes: a heading, a list item, a
    paragraph (at least [<p></p>] and a newline long) or one of the four
    list tags. *)
Definition well_tagged (f : string) : bool :=
  startswith "<h" f || startswith "<li>" f
  || (startswith "<p>" f && (8 <=? length f)%nat)
  || String.eqb f UL_OPEN || String.eqb f UL_CLOSE
  || String.eqb f OL_OPEN || String.eqb f OL_CLOSE.

(** The fragment of a list item. *)
Definition item_fragment (raw : string) : string :=
  "<li>" ++ format_text (drop 2 (rstrip raw)) ++ "</li>" ++ NL.

(** A line that takes the paragraph arm or the blank-line arm when no
    list is open. *)
Definition plain_or_blank (raw : string) : bool :=
  let line := rstrip raw in
  match Re.heading_match line with
  | Some _ => false
  | None =>
      negb (startswith "- " line) && negb (startswith "* " line)
      && negb (startswith "[[" line) && negb (startswith "((" line)
  end.

(** A line that the heading pattern matches. *)
Definition is_heading (raw : string) : bool :=
  match Re.heading_match (rstrip raw) with
  | Some _ => true
  | None => false
  end.

(** The last line of a document that is not a heading, if there is one. *)
Definition last_other_line (doc : list string) : option string :=
  find (fun raw => negb (is_heading raw)) (rev doc).

(** ** The script around the converter *)

(** [f.readlines()] on a file opened in text mode with the default
    universal newlines, [text] being the decoded content of the file: a
    line ends at a line feed, at a carriage return followed by a line
    feed, or at a lone carriage return, and each of these ends is handed
    over as one line feed. *)
Fixpoint readlines (text : string) : list string :=
  match text with
  | EmptyString => []
  | String c rest =>
      if Ascii.eqb c "010"%char then NL :: readlines rest
      else if Ascii.eqb c "013"%char then
        match rest with
        | String c2 rest2 =>
            if Ascii.eqb c2 "010"%char then NL :: readlines rest2
            else NL :: readlines rest
        | EmptyString => [NL]
        end
      else
        match readlines rest with
        | [] => [String c EmptyString]
        | l :: ls => String c l :: ls
        end
  end.

(** [line.rstrip('\n')] *)
Fixpoint rstrip_newline (s : string) : string :=
  match s with
  | EmptyString => EmptyString
  | String c s' =>
      let r := rstrip_newline s' in
      if Ascii.eqb c "010"%char && is_empty r then EmptyString else String c r
  end.

(** A line as [readlines] returns it: no carriage return, and no line
    feed but for a last one. *)
Definition clean_line (line : string) : Prop :=
  Re.all_dot (rstrip_newline line) = true
  /\ lacks "013" (rstrip_newline line) = true.


Section Script.

(** The file system as the script meets it: [os.path.exists], the
    decoded content of a file ([None] when opening or reading it raises
    [IOError]), and whether opening a file for writing and writing to it
    succeed. *)
Variable path_exists : string -> bool.
Variable read_text : string -> option string.
Variable write_ok : string -> bool.



End Script.

(** * Properties *)

(** ** Strings and lists *)

Lemma str_app_assoc (a b c : string) : (a ++ b) ++ c = a ++ (b ++ c).
Proof. induction a as [|x a IH]; simpl; [reflexivity | now rewrite IH]. Qed.

Lemma str_app_length (a b : string) : length (a ++ b) = length a + length b.
Proof. induction a as [|x a IH]; simpl; [reflexivity | now rewrite IH]. Qed.

Lemma take_app_exact (a b : string) : take (length a) (a ++ b) = a.
Proof. induction a as [|x a IH]; simpl; [now destruct b | now rewrite IH]. Qed.

Lemma drop_app_exact (a b : string) : drop (length a) (a ++ b) = b.
Proof. induction a as [|c a IH]; simpl; [reflexivity | exact IH]. Qed.

Lemma join_snoc (l : list string) (x : string) : join (l ++ [x]) = join l ++ x.
Proof.
  unfold join. induction l as [|y l IH]; simpl; [reflexivity|].
  destruct l as [|z l]; simpl in *; [reflexivity|].
  rewrite IH. now rewrite str_app_assoc.
Qed.

Lemma run_snoc (doc : list string) (line : string) :
  run (doc ++ [line]) = process_line (run doc) line.
Proof. unfold run. now rewrite fold_left_app. Qed.

Lemma last_is_paragraph_snoc (l : list string) (x : string) :
  last_is_paragraph (l ++ [x]) = startswith "<p>" x.
Proof.
  unfold last_is_paragraph. rewrite last_last.
  destruct l; reflexivity.
Qed.

Lemma last_is_paragraph_inv (l : list string) :
  last_is_paragraph l = true ->
  exists (l' : list string) (y : string),
    l = (l' ++ [y])%list /\ startswith "<p>" y = true.
Proof.
  destruct l as [|a l]; [discriminate|].
  intros H. destruct (exists_last (l := a :: l)) as [l' [y E]]; [discriminate|].
  exists l', y. split; [exact E|].
  rewrite E in H. now rewrite last_is_paragraph_snoc in H.
Qed.

(** ** List close and malformed commands: the line is lost *)

(** The arm that closes an unordered list, for any line that takes it:
    the closing tag is the only thing appended, and nothing of the line
    reaches the output. *)
Lemma unordered_close_arm (st : state) (raw : string) :
  in_unordered_list st = true ->
  Re.heading_match (rstrip raw) = None ->
  startswith "- " (rstrip raw) = false ->
  process_line st raw
  = mkState (html_lines st ++ [UL_CLOSE]) false (in_ordered_list st).
Proof.
  intros Hul Hh Hd. unfold process_line.
  rewrite Hh, Hd, Hul. reflexivity.
Qed.

(** The arm that closes an ordered list, likewise. *)
Lemma ordered_close_arm (st : state) (raw : string) :
  in_unordered_list st = false ->
  in_ordered_list st = true ->
  Re.heading_match (rstrip raw) = None ->
  startswith "- " (rstrip raw) = false ->
  startswith "* " (rstrip raw) = false ->
  process_line st raw
  = mkState (html_lines st ++ [OL_CLOSE]) false false.
Proof.
  intros Hul Hol Hh Hd Hs. unfold process_line.
  rewrite Hh, Hd, Hul, Hs, Hol. simpl. destruct st; simpl in *; now subst.
Qed.

(** C1 (defect in the code).  On ["- a"; "- b"; "text"] the converter
    emits the list and its closing tag and nothing else: the line "text"
    that closed the list is not re-evaluated, it is lost, and no paragraph
    follows the list.  The same happens when the list is an ordered one. *)
Theorem C1_list_close_loses_the_line :
  markdown_to_html ["- a"; "- b"; "text"]
  = "<ul>" ++ NL ++ "<li>a</li>" ++ NL ++ "<li>b</li>" ++ NL ++ "</ul>" ++ NL
  /\ occurrences "text" (markdown_to_html ["- a"; "- b"; "text"]) = 0
  /\ occurrences "<p>" (markdown_to_html ["- a"; "- b"; "text"]) = 0
  /\ markdown_to_html ["* a"; "* b"; "text"]
     = "<ol>" ++ NL ++ "<li>a</li>" ++ NL ++ "<li>b</li>" ++ NL ++ "</ol>" ++ NL.
Proof. repeat split; vm_compute; reflexivity. Qed.

(** A string that starts with a two-character prefix, taken apart. *)
Lemma startswith_two (a b : ascii) (s : string) :
  startswith (String a (String b "")) s = true ->
  exists r, s = String a (String b r).
Proof.
  unfold startswith. destruct s as [|c1 [|c2 r]]; simpl.
  - discriminate.
  - destruct (ascii_dec a c1); discriminate.
  - destruct (ascii_dec a c1) as [->|]; [|discriminate].
    destruct (ascii_dec b c2) as [->|]; [|discriminate].
    intros _. now exists r.
Qed.

(** A line that opens a command and never closes it leaves the state as
    it was, whatever the fragments so far. *)
Lemma unclosed_hash_command_arm (st : state) (raw : string) :
  in_unordered_list st = false ->
  in_ordered_list st = false ->
  startswith "[[" (rstrip raw) = true ->
  Re.hash_command_match (rstrip raw) = None ->
  process_line st raw = st.
Proof.
  intros Hul Hol Hp Hm. unfold process_line.
  destruct (startswith_two _ _ _ Hp) as [r E]. rewrite E in *.
  change (Re.heading_match (String "[" (String "[" r))) with (@None (nat * string)).
  change (startswith "- " (String "[" (String "[" r))) with false.
  change (startswith "* " (String "[" (String "[" r))) with false.
  rewrite Hul, Hol, Hp, Hm. reflexivity.
Qed.

(** C2 (defect in the code).  A line that starts with the opening of a
    command and has no closing for it is dropped: the converter returns
    the empty string for such a document, where the claim has a paragraph
    with the line in it. *)
Theorem C2_unclosed_command_is_dropped :
  markdown_to_html ["[[abc"] = ""
  /\ markdown_to_html ["((abc"] = ""
  /\ markdown_to_html ["one"; ""; "[[abc"; "two"]
     = markdown_to_html ["one"; ""; "two"].
Proof. repeat split; vm_compute; reflexivity. Qed.

(** ** The two list flags *)

(** C3 (defect in the code).  After ["* a"; "- b"] both flags are set: the
    arm of the unordered item opens its list without a look at the ordered
    one, and the output nests the two lists.  The other way round,
    ["- a"; "* b"], the open list is closed first. *)
Theorem C3_both_list_flags_set :
  in_unordered_list (run ["* a"; "- b"]) = true
  /\ in_ordered_list (run ["* a"; "- b"]) = true
  /\ markdown_to_html ["* a"; "- b"]
     = "<ol>" ++ NL ++ "<li>a</li>" ++ NL ++ "<ul>" ++ NL ++ "<li>b</li>" ++ NL
       ++ "</ul>" ++ NL ++ "</ol>" ++ NL
  /\ run ["- a"; "* b"]
     = mkState ["<ul>" ++ NL; "<li>a</li>" ++ NL; "</ul>" ++ NL] false false.
Proof. repeat split; vm_compute; reflexivity. Qed.

(** ** Paragraphs *)

(** C5 (defect in the code).  The slice that reopens the last paragraph
    takes three characters off a closing tag of five, so two plain lines
    are joined by the rest of that tag and the line break, a blank line
    turns the closing tag into a doubled one, and a plain line after the
    blank line still lands in the same paragraph fragment. *)
Theorem C5_paragraph_merge_leaves_tag_rest :
  markdown_to_html ["a"; "b"]
  = "<p>" ++ NL ++ "a" ++ NL ++ "</" ++ "<br/>" ++ NL ++ "b" ++ "</p>" ++ NL
  /\ markdown_to_html ["a"; ""]
     = "<p>" ++ NL ++ "a" ++ NL ++ "</" ++ "</p>" ++ NL
  /\ fragments ["a"; ""; "b"]
     = ["<p>" ++ NL ++ "a" ++ NL ++ "</" ++ "</" ++ "<br/>" ++ NL ++ "b" ++ "</p>" ++ NL].
Proof. repeat split; vm_compute; reflexivity. Qed.

(** A blank line is a no-operation when no list is open and the last
    fragment, if there is one, is not a paragraph. *)
Lemma blank_line_no_paragraph (st : state) (raw : string) :
  in_unordered_list st = false ->
  in_ordered_list st = false ->
  rstrip raw = "" ->
  last_is_paragraph (html_lines st) = false ->
  process_line st raw = st.
Proof.
  intros Hul Hol Hb Hp. unfold process_line.
  rewrite Hb. simpl. rewrite Hul, Hol, Hp. reflexivity.
Qed.

(** ** The hash command *)


(** C8.  The document ["[[abc]]"] yields one paragraph fragment whose
    content is the MD5 digest of the three bytes of "abc" in lower-case
    hexadecimal, 32 characters long. *)
Theorem C8_hash_command_abc :
  fragments ["[[abc]]"] = ["<p>" ++ MD5.hexdigest "abc" ++ "</p>" ++ NL]
  /\ markdown_to_html ["[[abc]]"]
     = "<p>" ++ "900150983cd24fb0d6963f7d28e17f72" ++ "</p>" ++ NL
  /\ MD5.encode "abc" = [97; 98; 99]%Z
  /\ MD5.hexdigest "abc" = "900150983cd24fb0d6963f7d28e17f72"
  /\ length (MD5.hexdigest "abc") = 32.
Proof. repeat split; vm_compute; reflexivity. Qed.

(** ** List balance *)

Ltac each_tag H :=
  destruct H as [ -> | [ -> | [ -> | -> ] ] ].

(** Decides the comparisons of closed fragments that a goal mentions. *)
Ltac eval_eqb :=
  repeat match goal with
         | |- context [String.eqb ?a ?b] =>
             let v := eval vm_compute in (String.eqb a b) in
             change (String.eqb a b) with v
         end.

(** Counts the given tag in the closed fragment lists of a goal. *)
Ltac eval_counts :=
  repeat match goal with
         | |- context [count_fragment ?t (?x :: ?l)] =>
             let v := eval vm_compute in (count_fragment t (x :: l)) in
             change (count_fragment t (x :: l)) with v
         | |- context [count_fragment ?t []] =>
             change (count_fragment t []) with 0
         end.

Section Balance.

Lemma count_fragment_app (t : string) (l m : list string) :
  count_fragment t (l ++ m) = count_fragment t l + count_fragment t m.
Proof. unfold count_fragment. now rewrite filter_app, length_app. Qed.

Lemma count_fragment_snoc (t : string) (l : list string) (x : string) :
  count_fragment t (l ++ [x])
  = count_fragment t l + (if String.eqb t x then 1 else 0).
Proof.
  unfold count_fragment. rewrite filter_app, length_app. simpl.
  now destruct (String.eqb t x).
Qed.

Lemma count_fragment_plain (t : string) (l : list string) (x : string) :
  is_tag t -> plain_fragment x ->
  count_fragment t (l ++ [x]) = count_fragment t l.
Proof.
  intros Ht Hx. rewrite count_fragment_snoc, (Hx t Ht). lia.
Qed.

Lemma heading_plain (r : string) : plain_fragment ("<h" ++ r).
Proof. intros t Ht. each_tag Ht; reflexivity. Qed.

Lemma item_plain (r : string) : plain_fragment ("<li>" ++ r).
Proof. intros t Ht. each_tag Ht; reflexivity. Qed.

Lemma paragraph_plain (r : string) : plain_fragment ("<p>" ++ r).
Proof. intros t Ht. each_tag Ht; reflexivity. Qed.

Lemma closed_paragraph_plain (a : string) : plain_fragment (a ++ "</p>" ++ NL).
Proof.
  intros t Ht. apply String.eqb_neq. intros E.
  assert (L : length t = length a + 5)
    by (rewrite E, str_app_length; reflexivity).
  each_tag Ht; destruct a as [|c1 [|c2 a]]; simpl in L; try lia;
    simpl in E; discriminate E.
Qed.

Lemma merged_paragraph_plain (a b c d : string) :
  plain_fragment (a ++ b ++ c ++ d ++ "</p>" ++ NL).
Proof.
  replace (a ++ b ++ c ++ d ++ "</p>" ++ NL)
    with ((a ++ b ++ c ++ d) ++ "</p>" ++ NL)
    by now rewrite !str_app_assoc.
  apply closed_paragraph_plain.
Qed.

Lemma startswith_app (p s : string) :
  startswith p s = true -> exists r, s = p ++ r.
Proof.
  unfold startswith. revert s.
  induction p as [|a p IH]; intros s H; [now exists s|].
  destruct s as [|b s]; simpl in H; [discriminate|].
  destruct (ascii_dec a b) as [->|]; [|discriminate].
  destruct (IH s H) as [r ->]. now exists r.
Qed.

Lemma startswith_here (p r : string) : startswith p (p ++ r) = true.
Proof.
  unfold startswith. induction p as [|a p IH]; simpl.
  - now destruct r.
  - destruct (ascii_dec a a) as [_|N]; [exact IH | now elim N].
Qed.

Lemma starts_paragraph_plain (y : string) :
  startswith "<p>" y = true -> plain_fragment y.
Proof.
  intros H. destruct (startswith_app _ _ H) as [r ->]. apply paragraph_plain.
Qed.

Lemma balanced_append (st : state) (x : string) :
  plain_fragment x -> balanced st -> balanced (append st x).
Proof.
  intros Hx [Hu Ho]. unfold balanced, append; simpl.
  rewrite !count_fragment_plain by (assumption || unfold is_tag; tauto).
  now split.
Qed.

Lemma balanced_set_last (st : state) (x : string) :
  last_is_paragraph (html_lines st) = true ->
  plain_fragment x -> balanced st -> balanced (set_last st x).
Proof.
  intros Hp Hx [Hu Ho].
  destruct (last_is_paragraph_inv _ Hp) as [l' [y [E Hy]]].
  apply starts_paragraph_plain in Hy.
  unfold balanced, set_last in *; simpl. rewrite E in *.
  rewrite removelast_last.
  rewrite !count_fragment_plain in * by (assumption || unfold is_tag; tauto).
  now split.
Qed.

Lemma balanced_initial : balanced initial.
Proof. split; reflexivity. Qed.

(** One line keeps the invariant, whichever arm it takes. *)
Lemma process_line_balanced (st : state) (raw : string) :
  balanced st -> balanced (process_line st raw).
Proof.
  intros B. unfold process_line.
  destruct (Re.heading_match (rstrip raw)) as [[level text]|].
  { apply balanced_append; [apply heading_plain | exact B]. }
  destruct (startswith "- " (rstrip raw)).
  { apply balanced_append; [apply item_plain|].
    destruct (in_unordered_list st) eqn:U; simpl; [exact B|].
    destruct B as [Hu Ho]. unfold balanced; simpl. rewrite U in Hu.
    rewrite !count_fragment_snoc.
    eval_eqb.
    split; lia. }
  destruct (in_unordered_list st) eqn:U; cbn [andb negb].
  { destruct B as [Hu Ho]. unfold balanced; simpl. rewrite U in Hu.
    rewrite !count_fragment_snoc.
    eval_eqb.
    split; lia. }
  destruct (startswith "* " (rstrip raw)).
  { apply balanced_append; [apply item_plain|].
    destruct (in_ordered_list st) eqn:O; simpl; [exact B|].
    destruct B as [Hu Ho]. unfold balanced; simpl. rewrite O in Ho. rewrite U in *.
    rewrite !count_fragment_snoc.
    eval_eqb.
    split; lia. }
  destruct (in_ordered_list st) eqn:O; cbn [andb negb].
  { destruct B as [Hu Ho]. unfold balanced; simpl. rewrite O in Ho. rewrite U in *.
    rewrite !count_fragment_snoc.
    eval_eqb.
    split; lia. }
  destruct (startswith "[[" (rstrip raw)).
  { destruct (Re.hash_command_match (rstrip raw)); [|exact B].
    apply balanced_append; [apply paragraph_plain | exact B]. }
  destruct (startswith "((" (rstrip raw)).
  { destruct (Re.strip_command_match (rstrip raw)); [|exact B].
    apply balanced_append; [apply paragraph_plain | exact B]. }
  destruct (negb (is_empty (strip (rstrip raw)))).
  { destruct (last_is_paragraph (html_lines st)) eqn:P.
    - apply balanced_set_last; [exact P | apply merged_paragraph_plain | exact B].
    - apply balanced_append; [apply paragraph_plain | exact B]. }
  destruct (last_is_paragraph (html_lines st)) eqn:P; [|exact B].
  apply balanced_set_last; [exact P | apply closed_paragraph_plain | exact B].
Qed.

Lemma run_balanced (doc : list string) : balanced (run doc).
Proof.
  unfold run. generalize balanced_initial. generalize initial.
  induction doc as [|line doc IH]; intros st B; simpl; [exact B|].
  apply IH, process_line_balanced, B.
Qed.

End Balance.

(** What the end of the document appends. *)
Lemma close_lists_lines (st : state) :
  html_lines (close_lists st)
  = (html_lines st
     ++ (if in_unordered_list st then [UL_CLOSE] else [])
     ++ (if in_ordered_list st then [OL_CLOSE] else []))%list.
Proof.
  destruct st as [l [|] [|]]; unfold close_lists, append; simpl;
    rewrite ?app_nil_r, <- ?app_assoc; reflexivity.
Qed.

(** C6.  In the fragments of every document there are as many [<ul>]
    as [</ul>] and as many [<ol>] as [</ol>]. *)
Theorem C6_list_tags_balanced (doc : list string) :
  count_fragment UL_OPEN (fragments doc) = count_fragment UL_CLOSE (fragments doc)
  /\ count_fragment OL_OPEN (fragments doc) = count_fragment OL_CLOSE (fragments doc).
Proof.
  unfold fragments. rewrite close_lists_lines.
  destruct (run_balanced doc) as [Hu Ho].
  destruct (in_unordered_list (run doc)), (in_ordered_list (run doc));
    rewrite !count_fragment_app; eval_counts; split; lia.
Qed.

(** ** Headings *)

Section Headings.





End Headings.



(** ** The end of the document *)

(** What the paragraph arm does to the state. *)
Lemma paragraph_arm_step (st : state) (raw : string) :
  paragraph_arm st raw = true ->
  in_unordered_list st = false /\ in_ordered_list st = false /\
  process_line st raw
  = if last_is_paragraph (html_lines st)
    then set_last st (chop 3 (last (html_lines st) EmptyString)
                        ++ "<br/>" ++ NL ++ format_text (rstrip raw) ++ "</p>" ++ NL)
    else append st ("<p>" ++ NL ++ format_text (rstrip raw) ++ NL ++ "</p>" ++ NL).
Proof.
  unfold paragraph_arm, process_line.
  destruct (Re.heading_match (rstrip raw)) as [p|]; [discriminate|].
  destruct (startswith "- " (rstrip raw)); [discriminate|].
  destruct (in_unordered_list st); [discriminate|].
  destruct (startswith "* " (rstrip raw)); [discriminate|].
  destruct (in_ordered_list st); [discriminate|].
  destruct (startswith "[[" (rstrip raw)); [discriminate|].
  destruct (startswith "((" (rstrip raw)); [discriminate|].
  destruct (is_empty (strip (rstrip raw))); [discriminate|].
  intros _. repeat split.
Qed.

Lemma ends_with_merged (a b c d : string) :
  ends_with ("</p>" ++ NL) (a ++ b ++ c ++ d ++ "</p>" ++ NL).
Proof. exists (a ++ b ++ c ++ d). now rewrite !str_app_assoc. Qed.

(** C4 as the claim has it, at one document: the paragraph of a document
    that ends in a plain line would come out without its closing tag. *)
Lemma C4_counterexample :
  ~ (paragraph_arm (run []) "text" = true ->
     ~ ends_with ("</p>" ++ NL) (markdown_to_html ([] ++ ["text"]))).
Proof.
  intros H. apply H; [reflexivity|].
  exists ("<p>" ++ NL ++ "text" ++ NL). reflexivity.
Qed.

(** C4, amended.  When the last line of a document is a plain paragraph
    line, the end of the document appends nothing (it only closes lists,
    and none is open), and the last fragment, hence the output, ends with
    the closing tag of the paragraph: the paragraph arm writes the closing
    tag itself. *)
Theorem C4_trailing_paragraph_closed (doc : list string) (line : string) :
  paragraph_arm (run doc) line = true ->
  fragments (doc ++ [line]) = html_lines (run (doc ++ [line]))
  /\ ends_with ("</p>" ++ NL) (last (fragments (doc ++ [line])) EmptyString)
  /\ ends_with ("</p>" ++ NL) (markdown_to_html (doc ++ [line])).
Proof.
  intros H. destruct (paragraph_arm_step _ _ H) as [Hul [Hol Hstep]].
  assert (Hfr : fragments (doc ++ [line]) = html_lines (run (doc ++ [line]))).
  { unfold fragments. rewrite close_lists_lines, run_snoc, Hstep.
    destruct (last_is_paragraph (html_lines (run doc)));
      unfold set_last, append; simpl; rewrite Hul, Hol; simpl;
      now rewrite app_nil_r. }
  split; [exact Hfr|].
  unfold markdown_to_html. rewrite Hfr, run_snoc, Hstep.
  destruct (last_is_paragraph (html_lines (run doc)));
    unfold set_last, append; cbn [html_lines];
    rewrite last_last, join_snoc; split.
  - apply ends_with_merged.
  - destruct (ends_with_merged
                (chop 3 (last (html_lines (run doc)) "")) ("<br/>" ++ NL)
                (format_text (rstrip line)) "") as [b Hb].
    exists (join (removelast (html_lines (run doc))) ++ b).
    rewrite str_app_assoc. f_equal. exact Hb.
  - exists ("<p>" ++ NL ++ format_text (rstrip line) ++ NL).
    now rewrite !str_app_assoc.
  - exists (join (html_lines (run doc)) ++ "<p>" ++ NL ++ format_text (rstrip line) ++ NL).
    now rewrite !str_app_assoc.
Qed.

Lemma C4_trailing_paragraph_closed_witness :
  fragments (["# title"; "first"] ++ ["second"])
  = html_lines (run (["# title"; "first"] ++ ["second"]))
  /\ ends_with ("</p>" ++ NL)
       (last (fragments (["# title"; "first"] ++ ["second"])) EmptyString)
  /\ ends_with ("</p>" ++ NL)
       (markdown_to_html (["# title"; "first"] ++ ["second"])).
Proof.
  apply (C4_trailing_paragraph_closed ["# title"; "first"] "second").
  reflexivity.
Defined.

(** ** The inline formatter *)

Section LazySubstitution.

(** The delimiter is a doubled character [x]. *)
Variable x : ascii.
Variables otag ctag : string.

Let d : string := String x (String x EmptyString).

Lemma sub_scan_skip (a b : string) :
  Re.sub_scan d otag ctag (length a) (a ++ b) = Re.sub_scan d otag ctag 0 b.
Proof. induction a as [|c a IH]; simpl; [reflexivity | exact IH]. Qed.

Lemma prefix_other (c : ascii) (s : string) :
  Ascii.eqb c x = false -> String.prefix d (String c s) = false.
Proof.
  intros H. simpl. destruct (ascii_dec x c) as [->|]; [|reflexivity].
  now rewrite Ascii.eqb_refl in H.
Qed.

Lemma prefix_delimiter (s : string) : String.prefix d (d ++ s) = true.
Proof.
  simpl. destruct (ascii_dec x x) as [_|N]; [|now elim N].
  now destruct s.
Qed.

(** The closing delimiter found by the lazy group is the first one. *)
Lemma split_at_first (span rest : string) :
  lacks x span = true ->
  split_at d (span ++ d ++ rest) = Some (span, rest).
Proof.
  induction span as [|c span IH]; intros H.
  - change ("" ++ d ++ rest) with (d ++ rest).
    unfold split_at. destruct (d ++ rest) eqn:E; [discriminate|].
    rewrite <- E, prefix_delimiter. reflexivity.
  - simpl in H. apply andb_prop in H. destruct H as [Hc Hs].
    apply negb_true_iff in Hc.
    change (String c span ++ d ++ rest) with (String c (span ++ d ++ rest)).
    cbn [split_at]. rewrite (prefix_other _ _ Hc), (IH Hs). reflexivity.
Qed.

Lemma lazy_between_hit (span rest : string) :
  lacks x span = true -> Re.all_dot span = true ->
  Re.lazy_between d d (d ++ span ++ d ++ rest) = Some (span, rest).
Proof.
  intros Hs Hd. unfold Re.lazy_between.
  rewrite prefix_delimiter.
  change (drop (length d) (d ++ span ++ d ++ rest)) with (span ++ d ++ rest).
  now rewrite (split_at_first _ _ Hs), Hd.
Qed.

(** Characters before the first delimiter character are copied. *)
Lemma sub_scan_copy (pre s : string) :
  lacks x pre = true ->
  Re.sub_scan d otag ctag 0 (pre ++ s) = pre ++ Re.sub_scan d otag ctag 0 s.
Proof.
  induction pre as [|c pre IH]; intros H; [reflexivity|].
  simpl in H. apply andb_prop in H. destruct H as [Hc Hp].
  apply negb_true_iff in Hc.
  change (String c pre ++ s) with (String c (pre ++ s)).
  cbn [Re.sub_scan]. unfold Re.lazy_between.
  rewrite (prefix_other _ _ Hc), (IH Hp). reflexivity.
Qed.

(** The scan at a character it does not skip. *)
Lemma sub_scan_at (ch : ascii) (s : string) :
  Re.sub_scan d otag ctag 0 (String ch s)
  = match Re.lazy_between d d (String ch s) with
    | Some (span, _) =>
        otag ++ span ++ ctag ++
        Re.sub_scan d otag ctag (length d + length span + length d - 1) s
    | None => String ch (Re.sub_scan d otag ctag 0 s)
    end.
Proof. reflexivity. Qed.

(** A delimited span is replaced and the scan resumes after it. *)
Lemma sub_scan_hit (span rest : string) :
  lacks x span = true -> Re.all_dot span = true ->
  Re.sub_scan d otag ctag 0 (d ++ span ++ d ++ rest)
  = otag ++ span ++ ctag ++ Re.sub_scan d otag ctag 0 rest.
Proof.
  intros Hs Hd.
  pose proof (lazy_between_hit span rest Hs Hd) as L.
  change (d ++ span ++ d ++ rest)
    with (String x (String x (span ++ d ++ rest))) in *.
  rewrite sub_scan_at, L.
  replace (String x (span ++ d ++ rest))
    with ((String x span ++ d) ++ rest)
    by (now rewrite str_app_assoc).
  replace (length d + length span + length d - 1)
    with (length (String x span ++ d))
    by (rewrite str_app_length; simpl; lia).
  now rewrite sub_scan_skip.
Qed.

(** Leftmost and shortest: the text up to the first delimiter is kept,
    the span up to the next delimiter is wrapped, and what follows is
    scanned on its own. *)
Lemma sub_scan_leftmost_shortest (pre span rest : string) :
  lacks x pre = true -> lacks x span = true -> Re.all_dot span = true ->
  Re.sub_scan d otag ctag 0 (pre ++ d ++ span ++ d ++ rest)
  = pre ++ otag ++ span ++ ctag ++ Re.sub_scan d otag ctag 0 rest.
Proof.
  intros Hp Hs Hd.
  now rewrite (sub_scan_copy _ _ Hp), (sub_scan_hit _ _ Hs Hd).
Qed.

End LazySubstitution.

(** ** Leftmost-shortest matching: the scan against the specification *)

Section AgainstSpecification.

(** Any delimiter that is not empty. *)
Variable x : ascii.
Variable d' : string.
Variables otag ctag : string.

Let d : string := String x d'.

Lemma drop_drop (a b : nat) (s : string) : drop (a + b) s = drop b (drop a s).
Proof.
  revert s. induction a as [|a IH]; intros s; [reflexivity|].
  destruct s as [|c s]; simpl; [now destruct b | apply IH].
Qed.

Lemma prefix_split (p s : string) :
  String.prefix p s = true -> s = p ++ drop (length p) s.
Proof.
  intros H. destruct (startswith_app p s H) as [r ->].
  now rewrite drop_app_exact.
Qed.

Lemma prefix_here (p r : string) : String.prefix p (p ++ r) = true.
Proof. exact (startswith_here p r). Qed.

(** What [split_at] returns is the first occurrence. *)
Lemma split_at_sound (t a b : string) :
  split_at d t = Some (a, b) -> t = a ++ d ++ b.
Proof.
  revert a b. induction t as [|c t IH]; intros a b H.
  - discriminate.
  - cbn [split_at] in H. destruct (String.prefix d (String c t)) eqn:P.
    + inversion H; subst. apply (prefix_split d (String c t) P).
    + destruct (split_at d t) as [[a' b']|]; [|discriminate].
      inversion H; subst. simpl. f_equal. now apply IH.
Qed.

Lemma split_at_first_occurrence (t a b : string) :
  split_at d t = Some (a, b) ->
  forall m, m < length a -> String.prefix d (drop m t) = false.
Proof.
  revert a b. induction t as [|c t IH]; intros a b H m Hm.
  - discriminate.
  - cbn [split_at] in H. destruct (String.prefix d (String c t)) eqn:P.
    + inversion H; subst. simpl in Hm. lia.
    + destruct (split_at d t) as [[a' b']|] eqn:E; [|discriminate].
      inversion H; subst. destruct m as [|m]; [exact P|].
      simpl in Hm. cbn [drop]. apply (IH a' b eq_refl). lia.
Qed.

Lemma split_at_none (t : string) :
  split_at d t = None -> forall m, String.prefix d (drop m t) = false.
Proof.
  induction t as [|c t IH]; intros H m.
  - now destruct m.
  - cbn [split_at] in H. destruct (String.prefix d (String c t)) eqn:P;
      [discriminate|].
    destruct (split_at d t) as [[a' b']|] eqn:E; [discriminate|].
    destruct m as [|m]; [exact P | apply IH; reflexivity].
Qed.

Lemma all_dot_take_beyond (a b : string) (m : nat) :
  Re.all_dot a = false -> length a <= m -> Re.all_dot (take m (a ++ b)) = false.
Proof.
  revert m. induction a as [|c a IH]; intros m H L; [discriminate|].
  destruct m as [|m]; simpl in L; [lia|].
  simpl in *. destruct (Re.dot c); [|reflexivity].
  simpl in *. apply IH; [exact H | lia].
Qed.

(** A span between two delimiters is a match of its length. *)
Lemma match_with_span (sp r : string) :
  Re.all_dot sp = true -> match_with d (d ++ sp ++ d ++ r) (length sp) = true.
Proof.
  intros H. unfold match_with.
  rewrite prefix_here, drop_app_exact, take_app_exact, H.
  rewrite drop_drop, drop_app_exact, drop_app_exact, prefix_here. reflexivity.
Qed.

(** The lazy group of the scan, when it finds a span. *)
Lemma lazy_between_some (s sp r : string) :
  Re.lazy_between d d s = Some (sp, r) ->
  s = d ++ sp ++ d ++ r /\ Re.all_dot sp = true
  /\ forall m, m < length sp -> match_with d s m = false.
Proof.
  unfold Re.lazy_between. intros H.
  destruct (String.prefix d s) eqn:P; [|discriminate].
  destruct (split_at d (drop (length d) s)) as [[a b]|] eqn:E; [|discriminate].
  destruct (Re.all_dot a) eqn:A; [|discriminate].
  inversion H; subst.
  pose proof (split_at_sound _ _ _ E) as S1.
  repeat split; [| exact A |].
  - rewrite <- S1. now apply prefix_split.
  - intros m Hm. unfold match_with.
    rewrite drop_drop, (split_at_first_occurrence _ _ _ E m Hm).
    now rewrite andb_false_r.
Qed.

(** The lazy group of the scan, when it finds none: no span matches. *)
Lemma lazy_between_none (s : string) :
  Re.lazy_between d d s = None -> forall m, match_with d s m = false.
Proof.
  unfold Re.lazy_between, match_with. intros H m.
  destruct (String.prefix d s) eqn:P; [|reflexivity].
  destruct (split_at d (drop (length d) s)) as [[a b]|] eqn:E.
  - destruct (Re.all_dot a) eqn:A; [discriminate|].
    destruct (Nat.lt_ge_cases m (length a)) as [L|L].
    + rewrite drop_drop, (split_at_first_occurrence _ _ _ E m L).
      now rewrite andb_false_r.
    + rewrite (split_at_sound _ _ _ E) at 1.
      now rewrite (all_dot_take_beyond a (d ++ b) m A L).
  - rewrite drop_drop, (split_at_none _ E m). now rewrite andb_false_r.
Qed.

Lemma sub_scan_pass (a b : string) :
  Re.sub_scan d otag ctag (length a) (a ++ b) = Re.sub_scan d otag ctag 0 b.
Proof. induction a as [|c a IH]; simpl; [reflexivity | exact IH]. Qed.

Lemma sub_scan_here (ch : ascii) (s : string) :
  Re.sub_scan d otag ctag 0 (String ch s)
  = match Re.lazy_between d d (String ch s) with
    | Some (span, _) =>
        otag ++ span ++ ctag ++
        Re.sub_scan d otag ctag (length d + length span + length d - 1) s
    | None => String ch (Re.sub_scan d otag ctag 0 s)
    end.
Proof. reflexivity. Qed.

(** The scan at a text that starts with a match: the shortest span is
    wrapped and the scan resumes after the closing delimiter. *)
Lemma sub_scan_match_here (s : string) (n : nat) :
  match_with d s n = true ->
  (forall m, m < n -> match_with d s m = false) ->
  Re.sub_scan d otag ctag 0 s
  = otag ++ take n (drop (length d) s) ++ ctag
      ++ Re.sub_scan d otag ctag 0 (drop (length d + n + length d) s).
Proof.
  intros M Hmin.
  destruct s as [|ch s']; [discriminate|].
  rewrite sub_scan_here.
  destruct (Re.lazy_between d d (String ch s')) as [[sp r]|] eqn:LB.
  - destruct (lazy_between_some _ _ _ LB) as [E [A Hsp]].
    assert (N : n = length sp).
    { destruct (Nat.lt_trichotomy n (length sp)) as [L|[L|L]]; [|exact L|].
      - rewrite (Hsp n L) in M. discriminate.
      - pose proof (match_with_span sp r A) as C. rewrite <- E in C.
        rewrite (Hmin _ L) in C. discriminate. }
    subst n. rewrite E.
    rewrite drop_app_exact, take_app_exact.
    replace (d ++ sp ++ d ++ r) with ((d ++ sp ++ d) ++ r)
      by (now rewrite !str_app_assoc).
    replace (length d + length sp + length d) with (length (d ++ sp ++ d))
      by (rewrite !str_app_length; lia).
    rewrite drop_app_exact. do 2 f_equal. f_equal.
    assert (S' : s' = (d' ++ sp ++ d) ++ r).
    { unfold d in E. simpl in E. inversion E as [[Hc Hs]].
      now rewrite !str_app_assoc. }
    rewrite S' at 1.
    replace (length (d ++ sp ++ d) - 1) with (length (d' ++ sp ++ d))
      by (unfold d; simpl; lia).
    apply sub_scan_pass.
  - rewrite (lazy_between_none _ LB n) in M. discriminate.
Qed.

(** The scan up to the leftmost match: the text before it is copied. *)
Lemma sub_scan_first_match (k : nat) : forall (text : string) (n : nat),
  match_with d (drop k text) n = true ->
  (forall j m, j < k -> m <= length text -> match_with d (drop j text) m = false) ->
  (forall m, m < n -> match_with d (drop k text) m = false) ->
  Re.sub_scan d otag ctag 0 text
  = take k text ++ otag ++ take n (drop (length d) (drop k text)) ++ ctag
      ++ Re.sub_scan d otag ctag 0 (drop (length d + n + length d) (drop k text)).
Proof.
  induction k as [|k IH]; intros text n M Hleft Hmin.
  - cbn [drop take] in *. now apply sub_scan_match_here.
  - destruct text as [|ch s']; [discriminate|].
    cbn [drop take] in *. rewrite sub_scan_here.
    destruct (Re.lazy_between d d (String ch s')) as [[sp r]|] eqn:LB.
    + destruct (lazy_between_some _ _ _ LB) as [E [A _]].
      pose proof (match_with_span sp r A) as C. rewrite <- E in C.
      assert (F : match_with d (String ch s') (length sp) = false).
      { apply (Hleft 0 (length sp)); [lia|]. rewrite E, !str_app_length. lia. }
      rewrite F in C. discriminate.
    + simpl. f_equal. apply IH; [exact M | | exact Hmin].
      intros j m Hj Hm. apply (Hleft (S j) m); [lia | simpl; lia].
Qed.

(** The scan of a text in which no match starts: the text is copied. *)
Lemma sub_scan_no_match (text : string) :
  (forall j m, j <= length text -> m <= length text ->
               match_with d (drop j text) m = false) ->
  Re.sub_scan d otag ctag 0 text = text.
Proof.
  induction text as [|ch s' IH]; intros H; [reflexivity|].
  rewrite sub_scan_here.
  destruct (Re.lazy_between d d (String ch s')) as [[sp r]|] eqn:LB.
  - destruct (lazy_between_some _ _ _ LB) as [E [A _]].
    pose proof (match_with_span sp r A) as C. rewrite <- E in C.
    assert (F : match_with d (String ch s') (length sp) = false).
    { apply (H 0 (length sp)); [lia|]. rewrite E, !str_app_length. lia. }
    rewrite F in C. discriminate.
  - f_equal. apply IH. intros j m Hj Hm.
    apply (H (S j) m); simpl; lia.
Qed.

(** The Boolean conditions read as bounded quantifiers. *)
Lemma no_match_before_spec (text : string) (k : nat) :
  no_match_before d text k = true <->
  (forall j m, j < k -> m <= length text -> match_with d (drop j text) m = false).
Proof.
  unfold no_match_before. rewrite forallb_forall. split.
  - intros H j m Hj Hm.
    assert (Hj' : In j (seq 0 k)) by (apply in_seq; lia).
    specialize (H j Hj'). rewrite forallb_forall in H.
    apply negb_true_iff, H, in_seq. lia.
  - intros H j Hj. apply in_seq in Hj. apply forallb_forall.
    intros m Hm. apply in_seq in Hm. apply negb_true_iff, H; lia.
Qed.

Lemma shortest_spec (s : string) (n : nat) :
  forallb (fun m => negb (match_with d s m)) (seq 0 n) = true <->
  (forall m, m < n -> match_with d s m = false).
Proof.
  rewrite forallb_forall. split.
  - intros H m Hm. apply negb_true_iff, H, in_seq. lia.
  - intros H m Hm. apply in_seq in Hm. apply negb_true_iff, H. lia.
Qed.

(** The rule on a text with a leftmost-shortest match at [k], of span
    length [n]. *)
Lemma sub_scan_leftmost_shortest_match (text : string) (k n : nat) :
  leftmost_shortest d text k n = true ->
  Re.sub_scan d otag ctag 0 text
  = take k text ++ otag ++ take n (drop (length d) (drop k text)) ++ ctag
      ++ Re.sub_scan d otag ctag 0 (drop (length d + n + length d) (drop k text)).
Proof.
  unfold leftmost_shortest. intros H.
  apply andb_prop in H. destruct H as [H H3].
  apply andb_prop in H. destruct H as [H1 H2].
  apply sub_scan_first_match; [exact H1 | | ].
  - now apply no_match_before_spec.
  - now apply shortest_spec.
Qed.

(** Below a bound, a Boolean property holds nowhere or has a least
    place where it holds. *)
Lemma least_or_none (p : nat -> bool) (b : nat) :
  (forall i, i < b -> p i = false)
  \/ exists i, i < b /\ p i = true /\ forall j, j < i -> p j = false.
Proof.
  induction b as [|b [IH|[i [Hi [Pi Li]]]]].
  - left. intros i Hi. lia.
  - destruct (p b) eqn:E.
    + right. exists b. repeat split; [lia | exact E | exact IH].
    + left. intros i Hi. destruct (Nat.eq_dec i b) as [->|]; [exact E|].
      apply IH. lia.
  - right. exists i. repeat split; [lia | exact Pi | exact Li].
Qed.

(** Every text is covered: either no match starts in it and the rule
    returns it as it is, or it has a leftmost-shortest match. *)
Lemma no_match_or_leftmost_shortest (text : string) :
  (no_match d text = true /\ Re.sub_scan d otag ctag 0 text = text)
  \/ exists k n, leftmost_shortest d text k n = true.
Proof.
  set (q := fun j m => match_with d (drop j text) m).
  set (p := fun j => negb (forallb (fun m => negb (q j m))
                                   (seq 0 (S (length text))))).
  destruct (least_or_none p (S (length text))) as [None|[k [Hk [Pk Lk]]]].
  - left.
    assert (A : forall j m, j < S (length text) -> m <= length text ->
                            match_with d (drop j text) m = false).
    { intros j m Hj Hm. specialize (None j Hj). unfold p in None.
      apply negb_false_iff in None. rewrite forallb_forall in None.
      apply negb_true_iff, None, in_seq. lia. }
    split; [now apply no_match_before_spec|].
    apply sub_scan_no_match. intros j m Hj Hm. apply A; lia.
  - right. exists k.
    destruct (least_or_none (q k) (S (length text))) as [None|[n [Hn [Qn Ln]]]].
    + unfold p in Pk. apply negb_true_iff in Pk.
      assert (T : forallb (fun m => negb (q k m)) (seq 0 (S (length text))) = true).
      { apply forallb_forall. intros m Hm. apply in_seq in Hm.
        apply negb_true_iff, None. lia. }
      rewrite T in Pk. discriminate.
    + exists n. unfold leftmost_shortest. fold (q k n). rewrite Qn.
      replace (no_match_before d text k) with true.
      * cbn [andb]. now apply shortest_spec.
      * symmetry. apply no_match_before_spec. intros j m Hj Hm.
        specialize (Lk j Hj). unfold p in Lk. apply negb_false_iff in Lk.
        rewrite forallb_forall in Lk. apply negb_true_iff, Lk, in_seq. lia.
Qed.

End AgainstSpecification.

(** C9.  [format_text] is the emphasis rule applied to the result of the
    bold rule.  Each rule rewrites leftmost-shortest, without overlap: on
    a text whose leftmost match starts at [k] and whose shortest span
    there has [n] characters, the rule copies the first [k] characters,
    wraps the span in its tags and goes on with the text after the
    closing marker; on a text in which no match starts, it returns the
    text.  Every text is one or the other, for markers inside the span or
    before the match as for any other character.  The document
    ["**bold** and __em__"] yields a paragraph with
    [<b>bold</b> and <em>em</em>] in it. *)
Theorem C9_bold_then_emphasis (tb te : string) (kb nb ke ne : nat) :
  leftmost_shortest "**" tb kb nb = true ->
  leftmost_shortest "__" te ke ne = true ->
  (forall text, format_text text = Re.sub_em (Re.sub_bold text))
  /\ Re.sub_bold tb
     = take kb tb ++ "<b>" ++ take nb (drop 2 (drop kb tb)) ++ "</b>"
         ++ Re.sub_bold (drop (2 + nb + 2) (drop kb tb))
  /\ Re.sub_em te
     = take ke te ++ "<em>" ++ take ne (drop 2 (drop ke te)) ++ "</em>"
         ++ Re.sub_em (drop (2 + ne + 2) (drop ke te))
  /\ (forall text,
        (no_match "**" text = true /\ Re.sub_bold text = text)
        \/ exists k n, leftmost_shortest "**" text k n = true)
  /\ (forall text,
        (no_match "__" text = true /\ Re.sub_em text = text)
        \/ exists k n, leftmost_shortest "__" text k n = true)
  /\ format_text "**a** **b**" = "<b>a</b> <b>b</b>"
  /\ markdown_to_html ["**bold** and __em__"]
     = "<p>" ++ NL ++ "<b>bold</b> and <em>em</em>" ++ NL ++ "</p>" ++ NL.
Proof.
  intros Hb He. repeat split.
  - exact (sub_scan_leftmost_shortest_match "*" "*" "<b>" "</b>" tb kb nb Hb).
  - exact (sub_scan_leftmost_shortest_match "_" "_" "<em>" "</em>" te ke ne He).
  - intros text. exact (no_match_or_leftmost_shortest "*" "*" "<b>" "</b>" text).
  - intros text. exact (no_match_or_leftmost_shortest "_" "_" "<em>" "</em>" text).
Qed.

Lemma C9_bold_then_emphasis_witness :
  (forall text, format_text text = Re.sub_em (Re.sub_bold text))
  /\ Re.sub_bold "a*b **c*d** e **f**"
     = take 4 "a*b **c*d** e **f**" ++ "<b>"
         ++ take 3 (drop 2 (drop 4 "a*b **c*d** e **f**")) ++ "</b>"
         ++ Re.sub_bold (drop (2 + 3 + 2) (drop 4 "a*b **c*d** e **f**"))
  /\ Re.sub_em "my_var __x_y__ z"
     = take 7 "my_var __x_y__ z" ++ "<em>"
         ++ take 3 (drop 2 (drop 7 "my_var __x_y__ z")) ++ "</em>"
         ++ Re.sub_em (drop (2 + 3 + 2) (drop 7 "my_var __x_y__ z"))
  /\ (forall text,
        (no_match "**" text = true /\ Re.sub_bold text = text)
        \/ exists k n, leftmost_shortest "**" text k n = true)
  /\ (forall text,
        (no_match "__" text = true /\ Re.sub_em text = text)
        \/ exists k n, leftmost_shortest "__" text k n = true)
  /\ format_text "**a** **b**" = "<b>a</b> <b>b</b>"
  /\ markdown_to_html ["**bold** and __em__"]
     = "<p>" ++ NL ++ "<b>bold</b> and <em>em</em>" ++ NL ++ "</p>" ++ NL.
Proof.
  apply (C9_bold_then_emphasis "a*b **c*d** e **f**" "my_var __x_y__ z" 4 3 7 3);
    vm_compute; reflexivity.
Defined.

(** ** Command paragraphs seen as open paragraphs *)

Section CommandParagraph.

(** A command line outside of any list appends its paragraph. *)
Lemma command_arm (st : state) (raw content : string) :
  in_unordered_list st = false ->
  in_ordered_list st = false ->
  command_content (rstrip raw) = Some content ->
  process_line st raw = append st ("<p>" ++ content ++ "</p>" ++ NL).
Proof.
  intros Hul Hol Hc. unfold command_content in Hc. unfold process_line.
  destruct (startswith "[[" (rstrip raw)) eqn:E1.
  - destruct (startswith_two _ _ _ E1) as [r E]. rewrite E in *.
    change (Re.heading_match (String "[" (String "[" r)))
      with (@None (nat * string)).
    change (startswith "- " (String "[" (String "[" r))) with false.
    change (startswith "* " (String "[" (String "[" r))) with false.
    rewrite Hul, Hol. cbn [andb negb].
    destruct (Re.hash_command_match (String "[" (String "[" r)));
      [|discriminate].
    simpl in Hc. now inversion Hc.
  - destruct (startswith "((" (rstrip raw)) eqn:E2; [|discriminate].
    destruct (startswith_two _ _ _ E2) as [r E]. rewrite E in *.
    change (Re.heading_match (String "(" (String "(" r)))
      with (@None (nat * string)).
    change (startswith "- " (String "(" (String "(" r))) with false.
    change (startswith "* " (String "(" (String "(" r))) with false.
    rewrite Hul, Hol. cbn [andb negb].
    destruct (Re.strip_command_match (String "(" (String "(" r)));
      [|discriminate].
    simpl in Hc. now inversion Hc.
Qed.

(** The slice [[:-3]] of a fragment that ends with the closing tag of a
    paragraph keeps the first two characters of that tag. *)
Lemma chop_closing_tag (a : string) :
  chop 3 (a ++ "</p>" ++ NL) = a ++ "</".
Proof.
  unfold chop.
  replace (a ++ "</p>" ++ NL) with ((a ++ "</") ++ "p>" ++ NL)
    by (now rewrite str_app_assoc).
  replace (length ((a ++ "</") ++ "p>" ++ NL) - 3) with (length (a ++ "</"))
    by (rewrite !str_app_length; simpl; lia).
  apply take_app_exact.
Qed.

Lemma chop_command_paragraph (content : string) :
  chop 3 ("<p>" ++ content ++ "</p>" ++ NL) = "<p>" ++ content ++ "</".
Proof.
  replace ("<p>" ++ content ++ "</p>" ++ NL)
    with (("<p>" ++ content) ++ "</p>" ++ NL)
    by (now rewrite str_app_assoc).
  rewrite chop_closing_tag. now rewrite str_app_assoc.
Qed.

Lemma blank_line_arm (st : state) (raw : string) :
  in_unordered_list st = false ->
  in_ordered_list st = false ->
  rstrip raw = "" ->
  last_is_paragraph (html_lines st) = true ->
  process_line st raw
  = set_last st (chop 3 (last (html_lines st) EmptyString) ++ "</p>" ++ NL).
Proof.
  intros Hul Hol Hb Hp. unfold process_line.
  rewrite Hb.
  change (Re.heading_match "") with (@None (nat * string)).
  change (startswith "- " "") with false.
  change (startswith "* " "") with false.
  change (startswith "[[" "") with false.
  change (startswith "((" "") with false.
  change (negb (is_empty (strip ""))) with false.
  rewrite Hul, Hol, Hp. reflexivity.
Qed.

End CommandParagraph.

(** C10.  After a command line handled as a command (no list is open),
    the last fragment is the paragraph of the command and starts with
    [<p>].  A plain paragraph line that follows is merged into that
    fragment: the last three characters of the fragment are cut, a line
    break and the formatted line are put after what is left, and the
    number of fragments stays the same.  A blank line that follows
    rewrites the end of the fragment in the same way, so the state is not
    what it was before the blank line. *)
Theorem C10_command_paragraph_reopened
    (st : state) (cmd content text blank : string) :
  in_unordered_list st = false ->
  in_ordered_list st = false ->
  command_content (rstrip cmd) = Some content ->
  paragraph_arm (process_line st cmd) text = true ->
  rstrip blank = "" ->
  let st1 := process_line st cmd in
  html_lines st1
  = (html_lines st ++ [("<p>" ++ content ++ "</p>" ++ NL)%string])%list
  /\ last_is_paragraph (html_lines st1) = true
  /\ html_lines (process_line st1 text)
     = (html_lines st
        ++ [(("<p>" ++ content ++ "</")
              ++ "<br/>" ++ NL ++ format_text (rstrip text) ++ "</p>" ++ NL)%string])%list
  /\ html_lines (process_line st1 blank)
     = (html_lines st ++ [(("<p>" ++ content ++ "</") ++ "</p>" ++ NL)%string])%list
  /\ process_line st1 blank <> st1.
Proof.
  intros Hul Hol Hc Ht Hb st1.
  assert (E1 : st1 = append st ("<p>" ++ content ++ "</p>" ++ NL))
    by (apply command_arm; assumption).
  assert (Hl : html_lines st1
               = (html_lines st ++ [("<p>" ++ content ++ "</p>" ++ NL)%string])%list)
    by (now rewrite E1).
  assert (Hp : last_is_paragraph (html_lines st1) = true)
    by (rewrite Hl, last_is_paragraph_snoc; apply startswith_here).
  assert (Hblank : html_lines (process_line st1 blank)
     = (html_lines st ++ [(("<p>" ++ content ++ "</") ++ "</p>" ++ NL)%string])%list).
  { rewrite blank_line_arm; try assumption; try (now rewrite E1).
    unfold set_last; cbn [html_lines].
    now rewrite Hl, removelast_last, last_last, chop_command_paragraph. }
  split; [exact Hl|]. split; [exact Hp|]. split; [|split; [exact Hblank|]].
  - destruct (paragraph_arm_step _ _ Ht) as [_ [_ Hstep]].
    fold st1 in Hstep. rewrite Hstep, Hp.
    unfold set_last; cbn [html_lines].
    now rewrite Hl, removelast_last, last_last, chop_command_paragraph.
  - intros E. rewrite E, Hl in Hblank.
    apply app_inv_head in Hblank. inversion Hblank as [Hx].
    apply (f_equal length) in Hx.
    rewrite !str_app_length in Hx. simpl in Hx. lia.
Qed.

Lemma C10_command_paragraph_reopened_witness :
  let st1 := process_line initial "[[abc]]" in
  html_lines st1
  = ([] ++ [("<p>" ++ "900150983cd24fb0d6963f7d28e17f72" ++ "</p>" ++ NL)%string])%list
  /\ last_is_paragraph (html_lines st1) = true
  /\ html_lines (process_line st1 "plain **text**")
     = ([] ++ [(("<p>" ++ "900150983cd24fb0d6963f7d28e17f72" ++ "</")
                 ++ "<br/>" ++ NL ++ format_text (rstrip "plain **text**")
                 ++ "</p>" ++ NL)%string])%list
  /\ html_lines (process_line st1 "  ")
     = ([] ++ [(("<p>" ++ "900150983cd24fb0d6963f7d28e17f72" ++ "</")
                 ++ "</p>" ++ NL)%string])%list
  /\ process_line st1 "  " <> st1.
Proof.
  apply (C10_command_paragraph_reopened
           initial "[[abc]]" "900150983cd24fb0d6963f7d28e17f72"
           "plain **text**" "  ");
    vm_compute; reflexivity.
Defined.

(** * Further properties of the converter *)

(** ** Trailing whitespace and blank documents *)

Section TrailingWhitespace.

Lemma rstrip_all_space (ws : string) : all_space ws = true -> rstrip ws = "".
Proof.
  induction ws as [|c ws IH]; simpl; [reflexivity|].
  intros H. apply andb_prop in H. destruct H as [Hc Hw].
  now rewrite (IH Hw), Hc.
Qed.

Lemma rstrip_app_space (s ws : string) :
  all_space ws = true -> rstrip (s ++ ws) = rstrip s.
Proof.
  intros H. induction s as [|c s IH]; simpl.
  - now apply rstrip_all_space.
  - now rewrite IH.
Qed.

Lemma rstrip_idempotent (s : string) : rstrip (rstrip s) = rstrip s.
Proof.
  induction s as [|c s IH]; simpl; [reflexivity|].
  destruct (is_space c && is_empty (rstrip s)) eqn:E; [reflexivity|].
  simpl. now rewrite IH, E.
Qed.

(** A line acts on the state through its [rstrip] only. *)
Lemma process_line_rstrip (st : state) (a b : string) :
  rstrip a = rstrip b -> process_line st a = process_line st b.
Proof. intros H. unfold process_line. now rewrite H. Qed.

Lemma run_from_rstrip (doc doc' : list string) :
  Forall2 (fun a b => rstrip a = rstrip b) doc doc' ->
  forall st, fold_left process_line doc st = fold_left process_line doc' st.
Proof.
  induction 1 as [|a b doc doc' Hab _ IH]; intros st; simpl; [reflexivity|].
  now rewrite (process_line_rstrip st a b Hab), IH.
Qed.

End TrailingWhitespace.

(** Whitespace added at the end of lines never changes the result: a
    document and the same document with any whitespace appended to any
    of its lines give the same HTML. *)
Theorem trailing_whitespace_ignored (doc doc' : list string) :
  Forall2 (fun a b => exists ws, all_space ws = true /\ b = a ++ ws) doc doc' ->
  markdown_to_html doc' = markdown_to_html doc.
Proof.
  intros H. unfold markdown_to_html, fragments, run.
  rewrite (run_from_rstrip doc doc'); [reflexivity|].
  induction H as [|a b doc doc' [ws [Hws ->]] _ IH]; constructor.
  - symmetry. now apply rstrip_app_space.
  - exact IH.
Qed.

Lemma trailing_whitespace_ignored_witness :
  markdown_to_html ["# title  "; "- **item** "; "text"]
  = markdown_to_html ["# title"; "- **item**"; "text"].
Proof.
  apply trailing_whitespace_ignored.
  constructor; [exists "  "; split; reflexivity|].
  constructor; [exists " "; split; reflexivity|].
  constructor; [exists ""; split; reflexivity|].
  constructor.
Defined.

(** A document of blank lines only (the empty document among them) gives
    the empty string. *)
Theorem blank_document_is_empty (doc : list string) :
  Forall (fun raw => all_space raw = true) doc ->
  markdown_to_html doc = "".
Proof.
  intros H. unfold markdown_to_html, fragments.
  assert (E : run doc = initial).
  { unfold run. induction H as [|raw doc Hraw _ IH]; simpl; [reflexivity|].
    rewrite (blank_line_no_paragraph initial raw); auto using rstrip_all_space. }
  now rewrite E.
Qed.

Lemma blank_document_is_empty_witness :
  markdown_to_html [""; "   "; ""] = "".
Proof.
  apply blank_document_is_empty. repeat constructor.
Defined.

(** ** What every fragment looks like *)

Section FragmentInvariant.

(** A property of fragments that each arm of the converter establishes
    for what it writes. *)
Variable Q : string -> Prop.

Hypothesis Q_heading : forall level text,
  Q ("<h" ++ str_of_nat level ++ ">" ++ text ++ "</h" ++ str_of_nat level ++ ">" ++ NL).
Hypothesis Q_item : forall body, Q ("<li>" ++ body ++ "</li>" ++ NL).
Hypothesis Q_tag : forall t, is_tag t -> Q t.
Hypothesis Q_paragraph : forall body, Q ("<p>" ++ body ++ "</p>" ++ NL).
Hypothesis Q_rewritten : forall old mid,
  Q old -> startswith "<p>" old = true -> Q (chop 3 old ++ mid ++ "</p>" ++ NL).

Lemma Forall_snoc (l : list string) (x : string) :
  Forall Q l -> Q x -> Forall Q (l ++ [x]).
Proof. intros Hl Hx. apply Forall_app. split; [exact Hl | now constructor]. Qed.

Lemma set_last_invariant (st : state) (mid : string) :
  last_is_paragraph (html_lines st) = true ->
  Forall Q (html_lines st) ->
  Forall Q (html_lines
              (set_last st (chop 3 (last (html_lines st) EmptyString)
                              ++ mid ++ "</p>" ++ NL))).
Proof.
  intros Hp Hl.
  destruct (last_is_paragraph_inv _ Hp) as [l' [y [E Hy]]].
  unfold set_last; cbn [html_lines]. rewrite E in *.
  rewrite removelast_last, last_last.
  apply Forall_app in Hl. destruct Hl as [Hl' Hq].
  apply Forall_snoc; [exact Hl'|].
  apply Q_rewritten; [now inversion Hq | exact Hy].
Qed.

Lemma process_line_invariant (st : state) (raw : string) :
  Forall Q (html_lines st) -> Forall Q (html_lines (process_line st raw)).
Proof.
  intros Hl. unfold process_line.
  assert (Hul : Forall Q (html_lines st ++ ["<ul>" ++ NL]))
    by (apply Forall_snoc; [exact Hl | apply Q_tag; left; reflexivity]).
  assert (Hol : Forall Q (html_lines st ++ ["<ol>" ++ NL]))
    by (apply Forall_snoc; [exact Hl | apply Q_tag; right; right; left; reflexivity]).
  destruct (Re.heading_match (rstrip raw)) as [[level text]|].
  { apply Forall_snoc; [exact Hl | apply Q_heading]. }
  destruct (startswith "- " (rstrip raw)).
  { unfold append. cbn [html_lines].
    destruct (in_unordered_list st); cbn [negb html_lines];
      apply Forall_snoc; auto. }
  destruct (in_unordered_list st); cbn [andb negb].
  { cbn [html_lines]. apply Forall_snoc; [exact Hl|].
    apply Q_tag; right; left; reflexivity. }
  destruct (startswith "* " (rstrip raw)).
  { unfold append. cbn [html_lines].
    destruct (in_ordered_list st); cbn [negb html_lines];
      apply Forall_snoc; auto. }
  destruct (in_ordered_list st); cbn [andb negb].
  { cbn [html_lines]. apply Forall_snoc; [exact Hl|].
    apply Q_tag; right; right; right; reflexivity. }
  destruct (startswith "[[" (rstrip raw)).
  { destruct (Re.hash_command_match (rstrip raw)); [|exact Hl].
    apply Forall_snoc; [exact Hl | apply Q_paragraph]. }
  destruct (startswith "((" (rstrip raw)).
  { destruct (Re.strip_command_match (rstrip raw)); [|exact Hl].
    apply Forall_snoc; [exact Hl | apply Q_paragraph]. }
  destruct (negb (is_empty (strip (rstrip raw)))).
  { destruct (last_is_paragraph (html_lines st)) eqn:P.
    - replace ("<br/>" ++ NL ++ format_text (rstrip raw) ++ "</p>" ++ NL)
        with (("<br/>" ++ NL ++ format_text (rstrip raw)) ++ "</p>" ++ NL)
        by (now rewrite !str_app_assoc).
      now apply set_last_invariant.
    - apply Forall_snoc; [exact Hl|].
      replace ("<p>" ++ NL ++ format_text (rstrip raw) ++ NL ++ "</p>" ++ NL)
        with ("<p>" ++ (NL ++ format_text (rstrip raw) ++ NL) ++ "</p>" ++ NL)
        by (now rewrite !str_app_assoc).
      apply Q_paragraph. }
  destruct (last_is_paragraph (html_lines st)) eqn:P; [|exact Hl].
  now apply (set_last_invariant st "").
Qed.

Lemma run_invariant (doc : list string) : Forall Q (html_lines (run doc)).
Proof.
  unfold run.
  assert (H0 : Forall Q (html_lines initial)) by constructor.
  revert H0. generalize initial.
  induction doc as [|line doc IH]; intros st H; simpl; [exact H|].
  apply IH, process_line_invariant, H.
Qed.

Lemma fragments_invariant (doc : list string) : Forall Q (fragments doc).
Proof.
  unfold fragments. rewrite close_lists_lines.
  apply Forall_app. split; [apply run_invariant|].
  apply Forall_app.
  split; [destruct (in_unordered_list (run doc))
         | destruct (in_ordered_list (run doc))];
    repeat constructor; apply Q_tag; unfold is_tag; tauto.
Qed.

End FragmentInvariant.

Lemma ends_with_app (suffix a b : string) :
  ends_with suffix b -> ends_with suffix (a ++ b).
Proof. intros [x ->]. exists (a ++ x). now rewrite str_app_assoc. Qed.

Lemma ends_with_self (s : string) : ends_with s s.
Proof. now exists "". Qed.

Lemma is_tag_ends_newline (t : string) : is_tag t -> ends_with NL t.
Proof.
  intros H. each_tag H; apply ends_with_app, ends_with_self.
Qed.

(** Every fragment ends with a newline, so the result is either empty or
    ends with a newline. *)
Theorem output_newline_terminated (doc : list string) :
  Forall (ends_with NL) (fragments doc)
  /\ (markdown_to_html doc = "" \/ ends_with NL (markdown_to_html doc)).
Proof.
  assert (H : Forall (ends_with NL) (fragments doc)).
  { apply fragments_invariant; intros;
      try (now apply is_tag_ends_newline);
      repeat apply ends_with_app; apply ends_with_self. }
  split; [exact H|].
  unfold markdown_to_html.
  destruct (fragments doc) as [|f fs] eqn:E; [now left | right].
  destruct (exists_last (l := f :: fs)) as [l' [y Ey]]; [discriminate|].
  rewrite Ey in *. rewrite join_snoc.
  apply Forall_app in H. destruct H as [_ Hy].
  apply ends_with_app. now inversion Hy.
Qed.

Section WellTagged.

Lemma well_tagged_heading (r : string) : well_tagged ("<h" ++ r) = true.
Proof. unfold well_tagged. now rewrite startswith_here. Qed.

Lemma well_tagged_item (r : string) : well_tagged ("<li>" ++ r) = true.
Proof.
  unfold well_tagged. rewrite (startswith_here "<li>" r).
  now rewrite orb_true_r.
Qed.

Lemma well_tagged_paragraph (r : string) :
  5 <= length r -> well_tagged ("<p>" ++ r) = true.
Proof.
  intros H. unfold well_tagged. rewrite (startswith_here "<p>" r).
  replace (8 <=? length ("<p>" ++ r))%nat with true
    by (symmetry; apply Nat.leb_le; rewrite str_app_length; simpl; lia).
  cbn [andb]. now rewrite orb_true_r.
Qed.

Lemma well_tagged_tag (t : string) : is_tag t -> well_tagged t = true.
Proof. intros H. each_tag H; reflexivity. Qed.

(** A fragment of the converter that starts with [<p>] is at least
    eight characters long. *)
Lemma well_tagged_paragraph_inv (old : string) :
  well_tagged old = true -> startswith "<p>" old = true ->
  exists r, old = "<p>" ++ r /\ 5 <= length r.
Proof.
  intros Hw Hp. destruct (startswith_app _ _ Hp) as [r ->].
  exists r. split; [reflexivity|].
  unfold well_tagged in Hw. rewrite (startswith_here "<p>" r) in Hw.
  change (startswith "<h" ("<p>" ++ r)) with false in Hw.
  change (startswith "<li>" ("<p>" ++ r)) with false in Hw.
  change (String.eqb ("<p>" ++ r) UL_OPEN) with false in Hw.
  change (String.eqb ("<p>" ++ r) UL_CLOSE) with false in Hw.
  change (String.eqb ("<p>" ++ r) OL_OPEN) with false in Hw.
  change (String.eqb ("<p>" ++ r) OL_CLOSE) with false in Hw.
  cbn [orb andb] in Hw. rewrite !orb_false_r in Hw. apply Nat.leb_le in Hw.
  rewrite str_app_length in Hw. simpl in Hw. lia.
Qed.

Lemma take_length (n : nat) (s : string) :
  n <= length s -> length (take n s) = n.
Proof.
  revert s. induction n as [|n IH]; intros s H; [reflexivity|].
  destruct s as [|c s]; simpl in *; [lia|]. rewrite IH; lia.
Qed.

(** Cutting three characters off a paragraph fragment leaves its
    opening tag in place. *)
Lemma chop_keeps_opening (r : string) :
  5 <= length r ->
  exists r', chop 3 ("<p>" ++ r) = "<p>" ++ r' /\ 2 <= length r'.
Proof.
  intros H. unfold chop.
  replace (length ("<p>" ++ r) - 3) with (3 + (length r - 3))
    by (rewrite str_app_length; simpl; lia).
  exists (take (length r - 3) r). split; [reflexivity|].
  rewrite take_length; lia.
Qed.

Lemma well_tagged_rewritten (old mid : string) :
  well_tagged old = true -> startswith "<p>" old = true ->
  well_tagged (chop 3 old ++ mid ++ "</p>" ++ NL) = true.
Proof.
  intros Hw Hp.
  destruct (well_tagged_paragraph_inv _ Hw Hp) as [r [-> Hr]].
  destruct (chop_keeps_opening r Hr) as [r' [-> Hr']].
  rewrite str_app_assoc. apply well_tagged_paragraph.
  rewrite !str_app_length. simpl. lia.
Qed.

End WellTagged.

(** Every fragment starts with a tag of the converter: it is a heading,
    a list item, a paragraph of at least eight characters, or one of the
    four list tags.  No text is written outside of these. *)
Theorem fragments_well_tagged (doc : list string) :
  Forall (fun f => well_tagged f = true) (fragments doc).
Proof.
  apply fragments_invariant.
  - intros. apply well_tagged_heading.
  - intros. apply well_tagged_item.
  - apply well_tagged_tag.
  - intros. apply well_tagged_paragraph.
    rewrite !str_app_length. simpl. lia.
  - apply well_tagged_rewritten.
Qed.

(** ** The list flags after a line *)

(** A heading leaves both flags as they are.  After any other line the
    unordered flag says whether that line was an unordered item, whatever
    the flag was before; the ordered flag is kept by an unordered item
    and by the line that closes an unordered list, and otherwise says
    whether the line was an ordered item. *)
Theorem list_flags_after_line (st : state) (raw : string) :
  in_unordered_list (process_line st raw)
  = match Re.heading_match (rstrip raw) with
    | Some _ => in_unordered_list st
    | None => startswith "- " (rstrip raw)
    end
  /\ in_ordered_list (process_line st raw)
     = match Re.heading_match (rstrip raw) with
       | Some _ => in_ordered_list st
       | None =>
           if startswith "- " (rstrip raw) || in_unordered_list st
           then in_ordered_list st
           else startswith "* " (rstrip raw)
       end.
Proof.
  unfold process_line. destruct st as [l u o]. cbn [in_unordered_list in_ordered_list html_lines].
  destruct (Re.heading_match (rstrip raw)) as [[level text]|]; [now split|].
  destruct (startswith "- " (rstrip raw)); [now destruct u|].
  destruct u; [now split|]. cbn [andb negb orb].
  destruct (startswith "* " (rstrip raw)); [now destruct o|].
  destruct o; [now split|]. cbn [andb negb].
  destruct (startswith "[[" (rstrip raw));
    [now destruct (Re.hash_command_match (rstrip raw))|].
  destruct (startswith "((" (rstrip raw));
    [now destruct (Re.strip_command_match (rstrip raw))|].
  destruct (negb (is_empty (strip (rstrip raw))));
    now destruct (last_is_paragraph l).
Qed.

(** The unordered list is open when the loop ends exactly when the last
    line of the document that is not a heading is an unordered item:
    headings leave the list as it is, every other line decides anew.
    That is when the end of the document appends [</ul>]. *)
Theorem unordered_list_open_at_end (doc : list string) :
  in_unordered_list (run doc)
  = match last_other_line doc with
    | Some raw => startswith "- " (rstrip raw)
    | None => false
    end.
Proof.
  unfold last_other_line.
  induction doc as [|raw doc IH] using rev_ind; [reflexivity|].
  rewrite run_snoc, rev_app_distr. cbn [rev app find].
  destruct (list_flags_after_line (run doc) raw) as [E _]. rewrite E.
  unfold is_heading.
  destruct (Re.heading_match (rstrip raw)); cbn [negb]; [exact IH | reflexivity].
Qed.

(** ** Runs of list items *)

Section ItemRuns.

Lemma item_not_heading (a b : ascii) (line : string) :
  Ascii.eqb a "#" = false ->
  startswith (String a (String b "")) line = true ->
  Re.heading_match line = None.
Proof.
  intros Ha H. destruct (startswith_two _ _ _ H) as [r ->].
  unfold Re.heading_match. simpl. now rewrite Ha.
Qed.

Lemma unordered_item_arm (st : state) (raw : string) :
  startswith "- " (rstrip raw) = true ->
  process_line st raw
  = mkState (html_lines st
             ++ (if in_unordered_list st then [] else [UL_OPEN])
             ++ [item_fragment raw])
            true (in_ordered_list st).
Proof.
  intros H. unfold process_line.
  rewrite (item_not_heading "-" " " _ eq_refl H), H.
  unfold append, item_fragment.
  destruct (in_unordered_list st) eqn:U;
    cbn [negb html_lines in_unordered_list in_ordered_list app];
    rewrite ?U; [reflexivity | now rewrite <- app_assoc].
Qed.

Lemma ordered_item_arm (st : state) (raw : string) :
  in_unordered_list st = false ->
  startswith "* " (rstrip raw) = true ->
  process_line st raw
  = mkState (html_lines st
             ++ (if in_ordered_list st then [] else [OL_OPEN])
             ++ [item_fragment raw])
            false true.
Proof.
  intros Hul H. unfold process_line.
  rewrite (item_not_heading "*" " " _ eq_refl H), H, Hul.
  destruct (startswith_two _ _ _ H) as [r E]. rewrite E.
  change (startswith "- " (String "*" (String " " r))) with false.
  cbn [andb negb]. rewrite <- E.
  unfold append, item_fragment.
  destruct (in_ordered_list st) eqn:O;
    cbn [negb html_lines in_unordered_list in_ordered_list app];
    rewrite ?Hul, ?O; [reflexivity | now rewrite <- app_assoc].
Qed.

Lemma unordered_items_continue (raws : list string) :
  Forall (fun raw => startswith "- " (rstrip raw) = true) raws ->
  forall st, in_unordered_list st = true ->
  fold_left process_line raws st
  = mkState (html_lines st ++ map item_fragment raws) true (in_ordered_list st).
Proof.
  induction 1 as [|raw raws Hraw _ IH]; intros st Hst; simpl.
  - rewrite app_nil_r. destruct st; simpl in *; now subst.
  - rewrite (unordered_item_arm st raw Hraw), Hst.
    rewrite IH by reflexivity. cbn [html_lines in_ordered_list app].
    now rewrite <- app_assoc.
Qed.

Lemma ordered_items_continue (raws : list string) :
  Forall (fun raw => startswith "* " (rstrip raw) = true) raws ->
  forall st, in_unordered_list st = false -> in_ordered_list st = true ->
  fold_left process_line raws st
  = mkState (html_lines st ++ map item_fragment raws) false true.
Proof.
  induction 1 as [|raw raws Hraw _ IH]; intros st Hul Hol; simpl.
  - rewrite app_nil_r. destruct st; simpl in *; now subst.
  - rewrite (ordered_item_arm st raw Hul Hraw), Hol.
    rewrite IH by reflexivity. cbn [html_lines app].
    now rewrite <- app_assoc.
Qed.

End ItemRuns.

(** A run of unordered items, from any state: the list is opened once,
    and only if it is not open yet, each item becomes one [<li>] fragment
    with its text formatted, in order, and the list is open afterwards.
    A document of such items only is one list, closed at the end. *)
Theorem unordered_items_run (st : state) (raw : string) (raws : list string) :
  Forall (fun r => startswith "- " (rstrip r) = true) (raw :: raws) ->
  fold_left process_line (raw :: raws) st
  = mkState (html_lines st
             ++ (if in_unordered_list st then [] else [UL_OPEN])
             ++ map item_fragment (raw :: raws))
            true (in_ordered_list st)
  /\ fragments (raw :: raws)
     = ([UL_OPEN] ++ map item_fragment (raw :: raws) ++ [UL_CLOSE])%list.
Proof.
  intros H. inversion H as [|? ? Hraw Hraws]; subst.
  assert (G : forall s, fold_left process_line (raw :: raws) s
    = mkState (html_lines s
               ++ (if in_unordered_list s then [] else [UL_OPEN])
               ++ map item_fragment (raw :: raws))
              true (in_ordered_list s)).
  { intros s. cbn [fold_left]. rewrite (unordered_item_arm s raw Hraw).
    rewrite (unordered_items_continue raws Hraws) by reflexivity.
    cbn [html_lines in_ordered_list map].
    now rewrite <- !app_assoc. }
  split; [apply G|].
  unfold fragments, run. rewrite G, close_lists_lines.
  cbn [html_lines in_unordered_list in_ordered_list initial app].
  reflexivity.
Qed.

Lemma unordered_items_run_witness :
  fold_left process_line ["- one"; "- **two**  "] (run ["# shopping"])
  = mkState (html_lines (run ["# shopping"])
             ++ (if in_unordered_list (run ["# shopping"]) then [] else [UL_OPEN])
             ++ map item_fragment ["- one"; "- **two**  "])
            true (in_ordered_list (run ["# shopping"]))
  /\ fragments ["- one"; "- **two**  "]
     = ([UL_OPEN] ++ map item_fragment ["- one"; "- **two**  "] ++ [UL_CLOSE])%list.
Proof.
  apply (unordered_items_run (run ["# shopping"]) "- one" ["- **two**  "]).
  repeat constructor.
Defined.

(** A run of ordered items, from a state with no unordered list open:
    the same with [<ol>]. *)
Theorem ordered_items_run (st : state) (raw : string) (raws : list string) :
  in_unordered_list st = false ->
  Forall (fun r => startswith "* " (rstrip r) = true) (raw :: raws) ->
  fold_left process_line (raw :: raws) st
  = mkState (html_lines st
             ++ (if in_ordered_list st then [] else [OL_OPEN])
             ++ map item_fragment (raw :: raws))
            false true
  /\ fragments (raw :: raws)
     = ([OL_OPEN] ++ map item_fragment (raw :: raws) ++ [OL_CLOSE])%list.
Proof.
  intros Hst H. inversion H as [|? ? Hraw Hraws]; subst.
  assert (G : forall s, in_unordered_list s = false ->
    fold_left process_line (raw :: raws) s
    = mkState (html_lines s
               ++ (if in_ordered_list s then [] else [OL_OPEN])
               ++ map item_fragment (raw :: raws))
              false true).
  { intros s Hs. cbn [fold_left]. rewrite (ordered_item_arm s raw Hs Hraw).
    rewrite (ordered_items_continue raws Hraws) by reflexivity.
    cbn [html_lines map].
    now rewrite <- !app_assoc. }
  split; [now apply G|].
  unfold fragments, run. rewrite G by reflexivity. rewrite close_lists_lines.
  cbn [html_lines in_unordered_list in_ordered_list initial app].
  reflexivity.
Qed.

Lemma ordered_items_run_witness :
  fold_left process_line ["* one"; "* __two__"] initial
  = mkState (html_lines initial
             ++ (if in_ordered_list initial then [] else [OL_OPEN])
             ++ map item_fragment ["* one"; "* __two__"])
            false true
  /\ fragments ["* one"; "* __two__"]
     = ([OL_OPEN] ++ map item_fragment ["* one"; "* __two__"] ++ [OL_CLOSE])%list.
Proof.
  apply (ordered_items_run initial "* one" ["* __two__"]);
    [reflexivity | repeat constructor].
Defined.

(** ** Command lines in general *)

Section Commands.











End Commands.





(** ** Plain and blank lines after a paragraph *)

Section ParagraphRun.

Lemma run_app (doc more : list string) :
  run (doc ++ more) = fold_left process_line more (run doc).
Proof. unfold run. now rewrite fold_left_app. Qed.

Lemma run_well_tagged (doc : list string) :
  Forall (fun f => well_tagged f = true) (html_lines (run doc)).
Proof.
  apply run_invariant.
  - intros. apply well_tagged_heading.
  - intros. apply well_tagged_item.
  - apply well_tagged_tag.
  - intros. apply well_tagged_paragraph. rewrite !str_app_length. simpl. lia.
  - apply well_tagged_rewritten.
Qed.

(** With no list open and a paragraph as last fragment, a plain or blank
    line rewrites that fragment and touches nothing else. *)
Lemma plain_or_blank_step (st : state) (raw : string) :
  in_unordered_list st = false ->
  in_ordered_list st = false ->
  last_is_paragraph (html_lines st) = true ->
  plain_or_blank raw = true ->
  exists mid,
    process_line st raw
    = set_last st (chop 3 (last (html_lines st) EmptyString) ++ mid ++ "</p>" ++ NL).
Proof.
  intros Hul Hol Hp H. unfold plain_or_blank in H. unfold process_line.
  destruct (Re.heading_match (rstrip raw)); [discriminate|].
  destruct (startswith "- " (rstrip raw)); [discriminate|].
  destruct (startswith "* " (rstrip raw)); [discriminate|].
  destruct (startswith "[[" (rstrip raw)); [discriminate|].
  destruct (startswith "((" (rstrip raw)); [discriminate|].
  rewrite Hul, Hol, Hp. cbn [andb negb].
  destruct (negb (is_empty (strip (rstrip raw)))).
  - exists ("<br/>" ++ NL ++ format_text (rstrip raw)).
    now rewrite !str_app_assoc.
  - now exists "".
Qed.

(** The state such a line leaves is of the same kind. *)
Lemma plain_or_blank_keeps (st : state) (raw : string) :
  in_unordered_list st = false ->
  in_ordered_list st = false ->
  last_is_paragraph (html_lines st) = true ->
  well_tagged (last (html_lines st) EmptyString) = true ->
  plain_or_blank raw = true ->
  let st' := process_line st raw in
  in_unordered_list st' = false /\ in_ordered_list st' = false
  /\ last_is_paragraph (html_lines st') = true
  /\ well_tagged (last (html_lines st') EmptyString) = true
  /\ removelast (html_lines st') = removelast (html_lines st)
  /\ List.length (html_lines st') = List.length (html_lines st).
Proof.
  intros Hul Hol Hp Hw H st'.
  destruct (plain_or_blank_step st raw Hul Hol Hp H) as [mid E].
  subst st'. rewrite E. unfold set_last; cbn [html_lines in_unordered_list in_ordered_list].
  destruct (last_is_paragraph_inv _ Hp) as [l' [y [El Hy]]].
  rewrite El in *. rewrite last_last in *. rewrite !removelast_last, last_last.
  assert (W : well_tagged (chop 3 y ++ mid ++ "</p>" ++ NL) = true)
    by now apply well_tagged_rewritten.
  repeat split; try assumption.
  - rewrite last_is_paragraph_snoc.
    destruct (well_tagged_paragraph_inv _ Hw Hy) as [r [-> Hr]].
    destruct (chop_keeps_opening r Hr) as [r' [-> _]].
    rewrite str_app_assoc. apply startswith_here.
  - now rewrite !length_app.
Qed.

End ParagraphRun.

(** Once a paragraph fragment is the last one and no list is open, plain
    lines and blank lines, in any number and order, only rewrite that
    fragment: no fragment is added, the fragments before it stay as they
    are, and the last fragment is still a paragraph.  A blank line does
    not separate two paragraphs. *)
Theorem paragraph_absorbs_plain_and_blank (doc more : list string) :
  in_unordered_list (run doc) = false ->
  in_ordered_list (run doc) = false ->
  last_is_paragraph (html_lines (run doc)) = true ->
  Forall (fun raw => plain_or_blank raw = true) more ->
  List.length (html_lines (run (doc ++ more))) = List.length (html_lines (run doc))
  /\ removelast (html_lines (run (doc ++ more))) = removelast (html_lines (run doc))
  /\ last_is_paragraph (html_lines (run (doc ++ more))) = true
  /\ fragments (doc ++ more) = html_lines (run (doc ++ more)).
Proof.
  intros Hul Hol Hp Hmore.
  assert (Hw : well_tagged (last (html_lines (run doc)) EmptyString) = true).
  { destruct (last_is_paragraph_inv _ Hp) as [l' [y [El _]]].
    pose proof (run_well_tagged doc) as W. rewrite El in *.
    rewrite last_last. apply Forall_app in W. destruct W as [_ W].
    now inversion W. }
  rewrite !(run_app doc more).
  assert (G : forall st,
    in_unordered_list st = false -> in_ordered_list st = false ->
    last_is_paragraph (html_lines st) = true ->
    well_tagged (last (html_lines st) EmptyString) = true ->
    let st' := fold_left process_line more st in
    List.length (html_lines st') = List.length (html_lines st)
    /\ removelast (html_lines st') = removelast (html_lines st)
    /\ last_is_paragraph (html_lines st') = true
    /\ in_unordered_list st' = false /\ in_ordered_list st' = false).
  { induction Hmore as [|raw more Hraw _ IH]; intros st H1 H2 H3 H4; cbn [fold_left].
    - repeat split; assumption.
    - destruct (plain_or_blank_keeps st raw H1 H2 H3 H4 Hraw)
        as [K1 [K2 [K3 [K4 [K5 K6]]]]].
      destruct (IH _ K1 K2 K3 K4) as [L1 [L2 [L3 [L4 L5]]]].
      repeat split; try assumption; congruence. }
  destruct (G (run doc) Hul Hol Hp Hw) as [L1 [L2 [L3 [L4 L5]]]].
  repeat split; try assumption.
  unfold fragments. rewrite (run_app doc more).
  rewrite close_lists_lines, L4, L5. now rewrite !app_nil_r.
Qed.

Lemma paragraph_absorbs_plain_and_blank_witness :
  List.length (html_lines (run (["# t"; "one"] ++ [""; "two"; "  "; "three"])))
  = List.length (html_lines (run ["# t"; "one"]))
  /\ removelast (html_lines (run (["# t"; "one"] ++ [""; "two"; "  "; "three"])))
     = removelast (html_lines (run ["# t"; "one"]))
  /\ last_is_paragraph
       (html_lines (run (["# t"; "one"] ++ [""; "two"; "  "; "three"]))) = true
  /\ fragments (["# t"; "one"] ++ [""; "two"; "  "; "three"])
     = html_lines (run (["# t"; "one"] ++ [""; "two"; "  "; "three"])).
Proof.
  apply (paragraph_absorbs_plain_and_blank
           ["# t"; "one"] [""; "two"; "  "; "three"]);
    try reflexivity.
  repeat constructor.
Defined.

(** ** More on the inline formatter *)

Section Markers.

Variable x : ascii.
Variables otag ctag : string.

Let d : string := String x (String x EmptyString).

Lemma str_app_nil_r (a : string) : a ++ "" = a.
Proof. induction a as [|c a IH]; simpl; [reflexivity | now rewrite IH]. Qed.

Lemma lacks_app (y : ascii) (a b : string) :
  lacks y (a ++ b) = lacks y a && lacks y b.
Proof.
  induction a as [|c a IH]; simpl; [reflexivity|].
  now rewrite IH, andb_assoc.
Qed.

Lemma all_dot_app (a b : string) :
  Re.all_dot (a ++ b) = Re.all_dot a && Re.all_dot b.
Proof.
  induction a as [|c a IH]; simpl; [reflexivity|].
  now rewrite IH, andb_assoc.
Qed.

(** A text without the marker character is copied. *)
Lemma sub_scan_plain (s : string) :
  lacks x s = true -> Re.sub_scan d otag ctag 0 s = s.
Proof.
  intros H. unfold d. rewrite <- (str_app_nil_r s) at 1.
  rewrite (sub_scan_copy x otag ctag s "" H). apply str_app_nil_r.
Qed.

Lemma split_at_absent (s : string) :
  lacks x s = true -> split_at d s = None.
Proof.
  induction s as [|c s IH]; intros H; [reflexivity|].
  simpl in H. apply andb_prop in H. destruct H as [Hc Hs].
  apply negb_true_iff in Hc.
  unfold d in *. cbn [split_at]. now rewrite (prefix_other x c s Hc), (IH Hs).
Qed.

(** An opening delimiter that is never closed is copied. *)
Lemma sub_scan_unclosed (rest : string) :
  lacks x rest = true ->
  Re.sub_scan d otag ctag 0 (d ++ rest) = d ++ rest.
Proof.
  intros H. pose proof (split_at_absent rest H) as A.
  pose proof (sub_scan_plain rest H) as B. unfold d in *.
  change (String x (String x "") ++ rest) with (String x (String x rest)).
  rewrite (sub_scan_at x otag ctag). unfold Re.lazy_between.
  pose proof (prefix_delimiter x rest) as P.
  change (String x (String x "") ++ rest) with (String x (String x rest)) in P.
  rewrite P.
  change (drop (length (String x (String x ""))) (String x (String x rest)))
    with rest.
  rewrite A. f_equal.
  rewrite (sub_scan_at x otag ctag). unfold Re.lazy_between.
  assert (N : String.prefix (String x (String x "")) (String x rest) = false).
  { simpl. destruct (ascii_dec x x) as [_|N]; [|now elim N].
    destruct rest as [|c rest]; [reflexivity|].
    simpl in H. apply andb_prop in H. destruct H as [Hc _].
    apply negb_true_iff in Hc. cbn [String.prefix].
    destruct (ascii_dec x c) as [->|]; [|reflexivity].
    now rewrite Ascii.eqb_refl in Hc. }
  rewrite N. f_equal. exact B.
Qed.

End Markers.

(** Text without a closed pair of markers is left as it is: text with no
    [*] and no [_] at all, and such text with one [**] or one [__] in it
    that nothing closes. *)
Theorem format_text_without_pair (pre rest : string) :
  lacks "*" pre = true -> lacks "_" pre = true ->
  lacks "*" rest = true -> lacks "_" rest = true ->
  format_text (pre ++ rest) = pre ++ rest
  /\ format_text (pre ++ "**" ++ rest) = pre ++ "**" ++ rest
  /\ format_text (pre ++ "__" ++ rest) = pre ++ "__" ++ rest.
Proof.
  intros Hp1 Hp2 Hr1 Hr2. unfold format_text, Re.sub_bold, Re.sub_em.
  repeat split.
  - rewrite (sub_scan_plain "*"), (sub_scan_plain "_");
      rewrite ?lacks_app, ?Hp1, ?Hp2, ?Hr1, ?Hr2; reflexivity.
  - rewrite (sub_scan_copy "*" _ _ pre _ Hp1).
    rewrite (sub_scan_unclosed "*" _ _ rest Hr1).
    rewrite (sub_scan_plain "_"); [reflexivity|].
    rewrite !lacks_app, Hp2, Hr2. reflexivity.
  - rewrite (sub_scan_plain "*"
               "<b>" "</b>" (pre ++ "__" ++ rest))
      by (rewrite !lacks_app, Hp1, Hr1; reflexivity).
    rewrite (sub_scan_copy "_" _ _ pre _ Hp2).
    now rewrite (sub_scan_unclosed "_" _ _ rest Hr2).
Qed.

Lemma format_text_without_pair_witness :
  format_text ("2 " ++ " 3 = 8") = "2 " ++ " 3 = 8"
  /\ format_text ("2 " ++ "**" ++ " 3 = 8") = "2 " ++ "**" ++ " 3 = 8"
  /\ format_text ("2 " ++ "__" ++ " 3 = 8") = "2 " ++ "__" ++ " 3 = 8".
Proof.
  apply (format_text_without_pair "2 " " 3 = 8"); reflexivity.
Defined.

(** Bold and emphasis nest either way, and the formatter goes on with
    the rest of the text: for [pre] and [span] without marker characters
    and any [rest], [pre **__span__** rest] becomes
    [pre <b><em>span</em></b>] followed by the formatted [rest], and
    [pre __**span**__ rest] becomes [pre <em><b>span</b></em>] followed
    by the formatted [rest]. *)
Theorem format_text_nested (pre span rest : string) :
  lacks "*" pre = true -> lacks "_" pre = true ->
  lacks "*" span = true -> lacks "_" span = true ->
  Re.all_dot span = true ->
  format_text (pre ++ "**" ++ ("__" ++ span ++ "__") ++ "**" ++ rest)
  = pre ++ "<b>" ++ ("<em>" ++ span ++ "</em>") ++ "</b>" ++ format_text rest
  /\ format_text (pre ++ "__" ++ ("**" ++ span ++ "**") ++ "__" ++ rest)
     = pre ++ "<em>" ++ ("<b>" ++ span ++ "</b>") ++ "</em>" ++ format_text rest.
Proof.
  intros Hp1 Hp2 Hs1 Hs2 Hd. unfold format_text, Re.sub_bold, Re.sub_em. split.
  - rewrite (sub_scan_leftmost_shortest "*" "<b>" "</b>" pre ("__" ++ span ++ "__") rest);
      [ | exact Hp1 | rewrite !lacks_app, Hs1; reflexivity
        | rewrite !all_dot_app, Hd; reflexivity ].
    replace (pre ++ "<b>" ++ ("__" ++ span ++ "__") ++ "</b>"
                 ++ Re.sub_scan "**" "<b>" "</b>" 0 rest)
      with ((pre ++ "<b>") ++ "__" ++ span ++ "__"
              ++ ("</b>" ++ Re.sub_scan "**" "<b>" "</b>" 0 rest))
      by (now rewrite !str_app_assoc).
    rewrite (sub_scan_leftmost_shortest "_" "<em>" "</em>" (pre ++ "<b>") span _);
      [ | rewrite lacks_app, Hp2; reflexivity | exact Hs2 | exact Hd ].
    rewrite (sub_scan_copy "_" "<em>" "</em>" "</b>" _ eq_refl).
    now rewrite !str_app_assoc.
  - replace (pre ++ "__" ++ ("**" ++ span ++ "**") ++ "__" ++ rest)
      with ((pre ++ "__") ++ "**" ++ span ++ "**" ++ ("__" ++ rest))
      by (now rewrite !str_app_assoc).
    rewrite (sub_scan_leftmost_shortest "*" "<b>" "</b>" (pre ++ "__") span _);
      [ | rewrite lacks_app, Hp1; reflexivity | exact Hs1 | exact Hd ].
    rewrite (sub_scan_copy "*" "<b>" "</b>" "__" rest eq_refl).
    replace ((pre ++ "__") ++ "<b>" ++ span ++ "</b>"
               ++ "__" ++ Re.sub_scan "**" "<b>" "</b>" 0 rest)
      with (pre ++ "__" ++ ("<b>" ++ span ++ "</b>") ++ "__"
              ++ Re.sub_scan "**" "<b>" "</b>" 0 rest)
      by (now rewrite !str_app_assoc).
    rewrite (sub_scan_leftmost_shortest "_" "<em>" "</em>" pre ("<b>" ++ span ++ "</b>") _);
      [ reflexivity | exact Hp2 | rewrite !lacks_app, Hs2; reflexivity
        | rewrite !all_dot_app, Hd; reflexivity ].
Qed.

Lemma format_text_nested_witness :
  format_text ("see " ++ "**" ++ ("__" ++ "this" ++ "__") ++ "**" ++ " and **that**")
  = "see " ++ "<b>" ++ ("<em>" ++ "this" ++ "</em>") ++ "</b>"
      ++ format_text " and **that**"
  /\ format_text ("see " ++ "__" ++ ("**" ++ "this" ++ "**") ++ "__" ++ " and **that**")
     = "see " ++ "<em>" ++ ("<b>" ++ "this" ++ "</b>") ++ "</em>"
         ++ format_text " and **that**".
Proof.
  apply (format_text_nested "see " "this" " and **that**"); reflexivity.
Defined.

(** ** The script *)


Section ScriptProperties.

Variable path_exists : string -> bool.
Variable read_text : string -> option string.
Variable write_ok : string -> bool.



End ScriptProperties.

Section ReadLines.

Lemma clean_newline : clean_line NL.
Proof. split; reflexivity. Qed.

Lemma clean_cons (c : ascii) (line : string) :
  Ascii.eqb c "010" = false -> Ascii.eqb c "013" = false ->
  clean_line line -> clean_line (String c line).
Proof.
  intros H1 H2 [A B]. unfold clean_line. cbn [rstrip_newline].
  rewrite H1. cbn [andb Re.all_dot lacks]. unfold Re.dot.
  now rewrite H1, H2, A, B.
Qed.

Lemma readlines_clean_bounded (n : nat) (text : string) :
  length text <= n -> Forall clean_line (readlines text).
Proof.
  revert text. induction n as [|n IH]; intros text Hn.
  - destruct text; [constructor | simpl in Hn; lia].
  - destruct text as [|c rest]; [constructor|].
    simpl in Hn. cbn [readlines].
    destruct (Ascii.eqb c "010") eqn:E1.
    { constructor; [apply clean_newline | apply IH; lia]. }
    destruct (Ascii.eqb c "013") eqn:E2.
    { destruct rest as [|c2 rest2]; [repeat constructor; apply clean_newline|].
      simpl in Hn.
      destruct (Ascii.eqb c2 "010");
        (constructor; [apply clean_newline | apply IH; simpl; lia]). }
    assert (R : Forall clean_line (readlines rest)) by (apply IH; lia).
    destruct (readlines rest) as [|l ls].
    + repeat constructor; cbn [rstrip_newline]; rewrite E1;
        cbn [andb Re.all_dot lacks]; unfold Re.dot; now rewrite ?E1, ?E2.
    + inversion R as [|? ? Hl Hls]; subst.
      constructor; [now apply clean_cons | exact Hls].
Qed.

End ReadLines.

(** The three line ends of a text file, and a last line without one. *)
Lemma readlines_line_ends :
  readlines ("a" ++ String "013" NL ++ "b" ++ String "013" "c" ++ NL ++ NL ++ "d")
  = ["a" ++ NL; "b" ++ NL; "c" ++ NL; NL; "d"].
Proof. reflexivity. Qed.

(** Every line the script hands to the converter holds no line feed and
    no carriage return, whatever the content of the file: the file is
    read with universal newlines, which turn every line end into one
    line feed, and that line feed is stripped.  For the lines of a file
    the any-character patterns of the converter are never stopped by a
    newline. *)
Theorem script_lines_without_newline (text : string) :
  Forall (fun line => Re.all_dot line = true /\ lacks "013" line = true)
         (map rstrip_newline (readlines text)).
Proof.
  apply Forall_map.
  exact (readlines_clean_bounded (length text) text (Nat.le_refl _)).
Qed.

(** ** Hashes with no text *)

Section BareHashes.

Lemma count_hashes_only (k : nat) : Re.count_hashes (replicate k "#") = k.
Proof. induction k as [|k IH]; simpl; [reflexivity | now rewrite IH]. Qed.

Lemma drop_all_hashes (k : nat) : drop k (replicate k "#") = "".
Proof. induction k as [|k IH]; simpl; [reflexivity | exact IH]. Qed.

Lemma hashes_lack (y : ascii) (k : nat) :
  Ascii.eqb "#" y = false -> lacks y (replicate k "#") = true.
Proof.
  intros H. induction k as [|k IH]; cbn [replicate lacks]; [reflexivity|].
  now rewrite H, IH.
Qed.

Lemma heading_match_hashes_only (k : nat) :
  Re.heading_match (replicate k "#") = None.
Proof.
  unfold Re.heading_match. cbv zeta. rewrite count_hashes_only.
  destruct k as [|k]; [reflexivity|]. now rewrite drop_all_hashes.
Qed.

End BareHashes.

(** There is no heading without text: a line of [k >= 1] hashes followed
    by nothing, or by whitespace only, is not matched by the heading
    pattern (the space after the hashes is stripped with the rest).  With
    no list open and no paragraph before it, it adds one fragment at the
    end of the fragments, a paragraph of the hashes, and the list flags
    stay unset. *)
Theorem bare_hashes_are_a_paragraph (st : state) (raw : string) (k : nat) :
  1 <= k ->
  rstrip raw = replicate k "#" ->
  in_unordered_list st = false ->
  in_ordered_list st = false ->
  last_is_paragraph (html_lines st) = false ->
  is_heading raw = false
  /\ html_lines (process_line st raw)
     = (html_lines st
        ++ [("<p>" ++ NL ++ replicate k "#" ++ NL ++ "</p>" ++ NL)%string])%list
  /\ in_unordered_list (process_line st raw) = false
  /\ in_ordered_list (process_line st raw) = false.
Proof.
  intros Hk E Hul Hol Hp.
  assert (Hh : Re.heading_match (rstrip raw) = None)
    by (rewrite E; apply heading_match_hashes_only).
  split; [unfold is_heading; now rewrite Hh|].
  assert (A : paragraph_arm st raw = true).
  { unfold paragraph_arm. rewrite Hh, Hul, Hol.
    unfold strip. rewrite rstrip_idempotent, E.
    destruct k as [|k]; [lia | reflexivity]. }
  destruct (paragraph_arm_step st raw A) as [_ [_ S]].
  rewrite S, Hp, E. unfold format_text, Re.sub_bold, Re.sub_em.
  rewrite (sub_scan_plain "*") by (now apply hashes_lack).
  rewrite (sub_scan_plain "_") by (now apply hashes_lack).
  unfold append; cbn [html_lines in_unordered_list in_ordered_list].
  repeat split; assumption.
Qed.

Lemma bare_hashes_are_a_paragraph_witness :
  is_heading "##   " = false
  /\ html_lines (process_line (run ["# t"]) "##   ")
     = (html_lines (run ["# t"])
        ++ [("<p>" ++ NL ++ replicate 2 "#" ++ NL ++ "</p>" ++ NL)%string])%list
  /\ in_unordered_list (process_line (run ["# t"]) "##   ") = false
  /\ in_ordered_list (process_line (run ["# t"]) "##   ") = false.
Proof.
  apply (bare_hashes_are_a_paragraph (run ["# t"]) "##   " 2); [lia | | | | ];
    reflexivity.
Defined.
